(** * eark_validator.cli.app: the validation orchestrator

    A shallow embedding of [src/eark_validator/cli/app.py].  The module's
    [validate] function composes three collaborators that live in other
    modules of the package ([eark_validator.infopacks.information_package],
    [eark_validator.infopacks.mets], [eark_validator.infopacks.rules]):
    it runs the structure check, then the METS schema validation when the
    package is well formed, then the Schematron profile when the schema
    validation returned [True].

    The collaborators are taken as parameters (class [Collaborators]); every
    call of one of them may raise, and is recorded in a call log, so that
    "stage X was (not) invoked" is a statement about the log.

    [validate] is embedded a second time, [validate_in_process], with
    collaborators that read and change a state of the process
    ([StatefulCollaborators]), for what two runs in one process have in
    common. The command line [cli] runs its loop on a file system that the
    writes of [hardcopy_file] change from one package to the next. *)

From Stdlib Require Import String Ascii List Bool Arith ZArith Lia.
Import ListNotations.
Set Warnings "-register-all".
Local Open Scope string_scope.
Local Open Scope list_scope.

(** ** Python values *)

(** The dynamically typed values that cross the orchestrator: the result
    dictionaries, the value returned by [validate_mets], [None]. A [dict] is
    an association list in insertion order, as [json.dumps] prints it; a
    [set] is the list of its elements in the order in which it is iterated. *)
Inductive PyVal : Type :=
| PyNone
| PyBool (b : bool)
| PyInt (n : Z)
| PyStr (s : string)
| PyList (items : list PyVal)
| PyDict (entries : list (string * PyVal))
| PySet (elements : list PyVal).

(** Python truth value of an object ([bool(v)]). *)
Definition truthy (v : PyVal) : bool :=
  match v with
  | PyNone => false
  | PyBool b => b
  | PyInt n => negb (Z.eqb n 0)
  | PyStr s => negb (String.eqb s "")
  | PyList items => match items with [] => false | _ :: _ => true end
  | PyDict entries => match entries with [] => false | _ :: _ => true end
  | PySet elements => match elements with [] => false | _ :: _ => true end
  end.

(** [v is True]: identity with the singleton [True]. *)
Definition is_True (v : PyVal) : bool :=
  match v with
  | PyBool true => true
  | _ => false
  end.

(** [d[k]] as [dict.get]: the value bound to [k], if any. *)
Fixpoint assoc_get (k : string) (entries : list (string * PyVal)) : option PyVal :=
  match entries with
  | [] => None
  | (k', v) :: rest => if String.eqb k k' then Some v else assoc_get k rest
  end.

(** [d[k] = v] on the entries: an existing key keeps its place. *)
Fixpoint assoc_set (k : string) (v : PyVal) (entries : list (string * PyVal))
  : list (string * PyVal) :=
  match entries with
  | [] => [(k, v)]
  | (k', v') :: rest =>
      if String.eqb k k' then (k, v) :: rest else (k', v') :: assoc_set k v rest
  end.

Definition dict_get (k : string) (d : PyVal) : option PyVal :=
  match d with
  | PyDict entries => assoc_get k entries
  | _ => None
  end.

Definition dict_set (k : string) (v : PyVal) (d : PyVal) : PyVal :=
  match d with
  | PyDict entries => PyDict (assoc_set k v entries)
  | other => other
  end.

(** ** posixpath *)

Definition starts_with_slash (s : string) : bool :=
  match s with
  | String c _ => Ascii.eqb c "/"
  | EmptyString => false
  end.

Definition ends_with_slash (s : string) : bool :=
  match String.get (String.length s - 1) s with
  | Some c => Ascii.eqb c "/"
  | None => false
  end.

(** [os.path.join(a, b)] (posixpath, two arguments). *)
Definition os_path_join (a b : string) : string :=
  if starts_with_slash b then b
  else if String.eqb a "" || ends_with_slash a then a ++ b
  else a ++ "/" ++ b.

(** [posixpath.split]: head up to and including the last slash, and tail. *)
Fixpoint split_at_last_slash (p : string) : option (string * string) :=
  match p with
  | EmptyString => None
  | String c rest =>
      match split_at_last_slash rest with
      | Some (head, tail) => Some (String c head, tail)
      | None => if Ascii.eqb c "/" then Some ("/", rest) else None
      end
  end.

Fixpoint all_slashes (s : string) : bool :=
  match s with
  | EmptyString => true
  | String c rest => Ascii.eqb c "/" && all_slashes rest
  end.

(** [s.rstrip('/')]. *)
Fixpoint rstrip_slash (s : string) : string :=
  match s with
  | EmptyString => EmptyString
  | String c rest => if all_slashes (String c rest) then EmptyString
                     else String c (rstrip_slash rest)
  end.

(** [os.path.basename(p)]. *)
Definition os_path_basename (p : string) : string :=
  match split_at_last_slash p with
  | Some (_, tail) => tail
  | None => p
  end.

(** [os.path.dirname(p)]. *)
Definition os_path_dirname (p : string) : string :=
  match split_at_last_slash p with
  | Some (head, _) => if all_slashes head then head else rstrip_slash head
  | None => ""
  end.

(** ** The result model of the collaborators *)

(** Modelled from the spec: [IP.StructureStatus], whose declaration is in
    [eark_validator.infopacks.information_package]: the enumerated state
    [WellFormed], [NotWellFormed], [Unknown]. *)
Inductive StructureStatus : Type :=
| Unknown
| NotWellFormed
| WellFormed.

Definition StructureStatus_eqb (a b : StructureStatus) : bool :=
  match a, b with
  | Unknown, Unknown => true
  | NotWellFormed, NotWellFormed => true
  | WellFormed, WellFormed => true
  | _, _ => false
  end.

Inductive Severity : Type :=
| SevError
| SevWarning
| SevInfo.

(** Modelled from the spec: one per-path finding of the structure check
    (relative path, violated condition, severity). *)
Record Finding : Type := mkFinding {
  finding_path : string;
  finding_condition : string;
  finding_severity : Severity
}.

(** Modelled from the spec: the object returned next to the structure
    dictionary; [validate] reads its [structure_status] and [path]. *)
Record StructureDetails : Type := mkStructureDetails {
  path : string;
  structure_status : StructureStatus;
  findings : list Finding
}.

(** Modelled from the spec: an entry of [MetsValidator.validation_errors]. *)
Record SchemaError : Type := mkSchemaError {
  error_message : string;
  error_location : string;
  error_severity : Severity
}.

(** ** Exceptions, the call log and the orchestrator's monad *)

Record PyExc : Type := mkPyExc {
  exc_type : string;
  exc_message : string
}.

Inductive result (A : Type) : Type :=
| Ok (a : A)
| Raise (e : PyExc).
Arguments Ok {A} a.
Arguments Raise {A} e.

(** One entry per call of a collaborator, in program order. *)
Inductive Event : Type :=
| CallStructure (to_validate : string)
| NewValidationProfile
| NewMetsValidator (root : string)
| CallValidateMets (mets_path : string)
| CallMetsResultsDict
| CallProfileValidate (mets_path : string)
| CallProfileResults
| CallProfileResultsDict
| CallGetSize (entity : string)
| CallSha1Directory (entity : string)
| CallSha1 (entity : string)
| Echo (format : string) (data : PyVal)
| EchoText (text : string)
| MakeDirs (directory_path : string)
| OpenFile (file_path : string)
| WriteFile (format : string) (file_path : string) (data : PyVal).

Definition Event_is_schema_stage (ev : Event) : bool :=
  match ev with
  | NewMetsValidator _ | CallValidateMets _ | CallMetsResultsDict => true
  | _ => false
  end.

Definition Event_is_profile_stage (ev : Event) : bool :=
  match ev with
  | CallProfileValidate _ | CallProfileResults | CallProfileResultsDict => true
  | _ => false
  end.

Definition Event_is_profile_init (ev : Event) : bool :=
  match ev with
  | NewValidationProfile => true
  | _ => false
  end.

Definition Event_is_profile_validate (ev : Event) : bool :=
  match ev with
  | CallProfileValidate _ => true
  | _ => false
  end.

Definition Log : Type := list Event.

(** A computation reads the log so far and returns its outcome with the
    extended log; an exception ends it, the log is kept. *)
Definition M (A : Type) : Type := Log -> result A * Log.

Definition ret {A : Type} (a : A) : M A := fun log => (Ok a, log).

Definition bind {A B : Type} (m : M A) (k : A -> M B) : M B :=
  fun log =>
    match m log with
    | (Ok a, log') => k a log'
    | (Raise e, log') => (Raise e, log')
    end.

(** Calling a collaborator: the call is logged, its outcome is returned. *)
Definition call {A : Type} (ev : Event) (outcome : result A) : M A :=
  fun log => (outcome, log ++ [ev]).

(** An effect that cannot fail in the model (console and file output). *)
Definition emit (ev : Event) : M unit :=
  fun log => (Ok tt, log ++ [ev]).

(** [raise exc]. *)
Definition raise {A : Type} (e : PyExc) : M A :=
  fun log => (Raise e, log).

(** A computation is log-parametric when its outcome does not depend on the
    log it starts from and it only appends to that log. *)
Definition parametric {A : Type} (m : M A) : Prop :=
  forall log, m log = (fst (m []), log ++ snd (m [])).

Declare Scope py_scope.
Delimit Scope py_scope with py.
Notation "x <- m ;; k" := (bind m (fun x => k))
  (at level 100, m at next level, right associativity) : py_scope.
Notation "' pat <- m ;; k" := (bind m (fun x => match x with pat => k end))
  (at level 100, pat pattern, m at next level, right associativity) : py_scope.
Notation "m ;;; k" := (bind m (fun _ => k))
  (at level 100, right associativity) : py_scope.
Local Open Scope py_scope.

(** ** The collaborators *)

(** The parts of the package that [app.py] imports and calls. [FS] is the
    file system the package lives on; the collaborators read it and never
    write it. [MetsObj] and [ProfObj] are the states of a [MetsValidator]
    and of a [ValidationProfile] instance; a method that mutates its
    receiver returns the new state. *)
Class Collaborators (FS : Type) : Type := {
  MetsObj : Type;
  ProfObj : Type;
  (** [IP.validate_package_structure_dict(to_validate)] *)
  validate_package_structure_dict : FS -> string -> result (PyVal * StructureDetails);
  (** [MetsValidator(root)] *)
  MetsValidator_init : FS -> string -> result MetsObj;
  (** [validator.validate_mets(mets_path)] *)
  validate_mets : FS -> MetsObj -> string -> result (PyVal * MetsObj);
  (** [validator.get_results_dict()] *)
  mets_get_results_dict : MetsObj -> result PyVal;
  (** [validator.validation_errors] *)
  validation_errors : MetsObj -> list SchemaError;
  (** [ValidationProfile()] *)
  ValidationProfile_init : FS -> result ProfObj;
  (** [profile.validate(mets_path)] *)
  profile_validate : FS -> ProfObj -> string -> result ProfObj;
  (** [profile.get_results()] *)
  profile_get_results : ProfObj -> result PyVal;
  (** [profile.get_results_dict()] *)
  profile_get_results_dict : ProfObj -> result PyVal;
  (** [profile.is_valid] *)
  is_valid : ProfObj -> bool;
  (** [ValidationProfile.NAMES] *)
  NAMES : PyVal;
  (** [os.path.getsize(entity)] *)
  os_path_getsize : FS -> string -> result Z;
  (** [UTILS.sha1_directory(entity)] and [UTILS.sha1(entity)] *)
  sha1_directory : FS -> string -> result string;
  sha1 : FS -> string -> result string
}.

(** The nine values [validate] returns, under the names of its variables. *)
Record ValidateResult : Type := mkValidateResult {
  struct_dict : PyVal;
  prof_results_dict : PyVal;
  mets_results_dict : PyVal;
  struct_details : StructureDetails;
  schema_result : PyVal;
  schema_errors : list SchemaError;
  prof_names : PyVal;
  schematron_result : bool;
  prof_results : PyVal
}.

Section Orchestrator.

Context {FS : Type} {C : Collaborators FS}.
Variable fs : FS.

(** The variables [validate] initialises at lines 128-134 and assigns in
    the two guarded blocks. *)
Record Locals : Type := mkLocals {
  l_schema_result : PyVal;
  l_prof_results : PyVal;
  l_prof_results_dict : PyVal;
  l_mets_results_dict : PyVal;
  l_schema_errors : list SchemaError;
  l_profile : ProfObj
}.

(** Lines 144-147: the block guarded by [schema_result is True]. *)
Definition profile_stage (mets_path : string) (st : Locals) : M Locals :=
  if is_True (l_schema_result st) then
    profile <- call (CallProfileValidate mets_path)
                    (profile_validate fs (l_profile st) mets_path) ;;
    prof_results <- call CallProfileResults (profile_get_results profile) ;;
    prof_results_dict <- call CallProfileResultsDict (profile_get_results_dict profile) ;;
    ret (mkLocals (l_schema_result st) prof_results prof_results_dict
                  (l_mets_results_dict st) (l_schema_errors st) profile)
  else ret st.

(** Lines 136-147: the block guarded by the structure status. *)
Definition schema_stage (details : StructureDetails) (st : Locals) : M Locals :=
  if StructureStatus_eqb (structure_status details) WellFormed then
    validator <- call (NewMetsValidator (path details))
                      (MetsValidator_init fs (path details)) ;;
    let mets_path := os_path_join (path details) "METS.xml" in
    ' (schema_result, validator) <- call (CallValidateMets mets_path)
                                         (validate_mets fs validator mets_path) ;;
    mets_results_dict <- call CallMetsResultsDict (mets_get_results_dict validator) ;;
    let schema_errors := validation_errors validator in
    profile_stage mets_path
      (mkLocals schema_result (l_prof_results st) (l_prof_results_dict st)
                mets_results_dict schema_errors (l_profile st))
  else ret st.

(** [validate(to_validate)], lines 124-151. *)
Definition validate (to_validate : string) : M ValidateResult :=
  ' (struct_dict, struct_details) <-
      call (CallStructure to_validate)
           (validate_package_structure_dict fs to_validate) ;;
  profile <- call NewValidationProfile (ValidationProfile_init fs) ;;
  st <- schema_stage struct_details
          (mkLocals PyNone (PyDict []) (PyDict []) (PyDict []) [] profile) ;;
  let prof_names := NAMES in
  let schematron_result := is_valid (l_profile st) in
  ret (mkValidateResult struct_dict (l_prof_results_dict st)
         (l_mets_results_dict st) struct_details (l_schema_result st)
         (l_schema_errors st) prof_names schematron_result (l_prof_results st)).

(** [write_data_to_file_json(data, file_path)], lines 107-118: a list, a
    dictionary and a set are written, anything else raises. What is
    written is logged as one event that carries the data. *)
Definition write_data_to_file_json (data : PyVal) (file_path : string) : M unit :=
  emit (OpenFile file_path) ;;;
  match data with
  | PyList _ | PyDict _ | PySet _ => emit (WriteFile "json" file_path data)
  | _ => raise (mkPyExc "ValueError"
                  ("Data must be a list, dictionary, or set " ++ file_path))
  end.

(** [write_data_to_file_xml(data, file_path)]. *)
Definition write_data_to_file_xml (data : PyVal) (file_path : string) : M unit :=
  emit (OpenFile file_path) ;;;
  emit (WriteFile "xml" file_path data).

(** [hardcopy_file(filename, extension, sha1_hash, data, verbose, format)]. *)
Definition hardcopy_file (filename extension sha1_hash : string) (data : PyVal)
    (verbose : bool) (format : string) : M unit :=
  (if verbose then
     emit (EchoText (filename ++ " is a valid file with extension " ++ extension
                     ++ " and SHA1: " ++ sha1_hash ++ " checksum.")) ;;;
     emit (EchoText "Working...")
   else ret tt) ;;;
  let tmp_folder_name := sha1_hash in
  emit (MakeDirs tmp_folder_name) ;;;
  if String.eqb format "json" then
    write_data_to_file_json data
      (os_path_join tmp_folder_name ("ip_validator." ++ filename ++ ".json"))
  else
    write_data_to_file_xml data
      (os_path_join tmp_folder_name ("ip_validator." ++ filename ++ ".xml")).

(** [process_entity(entity, extension, xml, json, hardcopy)], lines 49-80.
    The Python function returns nothing; the model returns the
    [validation_result] dictionary it has built and handed to the
    serialisers, which is the report of the run. *)
Definition process_entity (entity extension : string) (xml json hardcopy : bool)
  : M PyVal :=
  let filename := os_path_basename entity in
  let filepath := os_path_dirname entity in
  filesize <- call (CallGetSize entity) (os_path_getsize fs entity) ;;
  sha1_hash <- (if String.eqb extension "directory"
                then call (CallSha1Directory entity) (sha1_directory fs entity)
                else call (CallSha1 entity) (sha1 fs entity)) ;;
  let validation_result := PyDict [] in
  let validation_result :=
    dict_set "metadata"
      (PyDict [("filename", PyStr filename); ("filepath", PyStr filepath);
               ("filesize", PyInt filesize); ("sha1", PyStr sha1_hash)])
      validation_result in
  r <- validate entity ;;
  let validation_result := dict_set "structure" (struct_dict r) validation_result in
  let validation_result := dict_set "profile" (prof_results_dict r) validation_result in
  let validation_result := dict_set "mets" (mets_results_dict r) validation_result in
  (if xml then
     emit (Echo "xml" validation_result) ;;;
     if hardcopy
     then hardcopy_file filename extension sha1_hash validation_result false "xml"
     else ret tt
   else if json then
     emit (Echo "json" validation_result) ;;;
     if hardcopy
     then hardcopy_file filename extension sha1_hash validation_result false "json"
     else ret tt
   else if hardcopy
     then hardcopy_file filename extension sha1_hash validation_result true "json"
     else ret tt) ;;;
  ret validation_result.

(** What a run started on the empty log returns, and the calls it makes. *)
Definition outcome (to_validate : string) : result ValidateResult :=
  fst (validate to_validate []).

Definition trace (to_validate : string) : Log :=
  snd (validate to_validate []).

End Orchestrator.

(** ** The paths of a run *)

Section Runs.

Context {FS : Type} {C : Collaborators FS}.
Variable fs : FS.

(** The runs of the block guarded by [schema_result is True]: which calls
    it makes and what it leaves in the variables, call by call. *)
Inductive ProfileStageRun (mets_path : string) (st : Locals)
  : result Locals -> Log -> Prop :=
| Profile_skipped :
    l_schema_result st <> PyBool true ->
    ProfileStageRun mets_path st (Ok st) []
| Profile_validate_raises e :
    l_schema_result st = PyBool true ->
    profile_validate fs (l_profile st) mets_path = Raise e ->
    ProfileStageRun mets_path st (Raise e) [CallProfileValidate mets_path]
| Profile_results_raise profile e :
    l_schema_result st = PyBool true ->
    profile_validate fs (l_profile st) mets_path = Ok profile ->
    profile_get_results profile = Raise e ->
    ProfileStageRun mets_path st (Raise e)
      [CallProfileValidate mets_path; CallProfileResults]
| Profile_results_dict_raises profile results e :
    l_schema_result st = PyBool true ->
    profile_validate fs (l_profile st) mets_path = Ok profile ->
    profile_get_results profile = Ok results ->
    profile_get_results_dict profile = Raise e ->
    ProfileStageRun mets_path st (Raise e)
      [CallProfileValidate mets_path; CallProfileResults; CallProfileResultsDict]
| Profile_evaluated profile results results_dict :
    l_schema_result st = PyBool true ->
    profile_validate fs (l_profile st) mets_path = Ok profile ->
    profile_get_results profile = Ok results ->
    profile_get_results_dict profile = Ok results_dict ->
    ProfileStageRun mets_path st
      (Ok (mkLocals (l_schema_result st) results results_dict
             (l_mets_results_dict st) (l_schema_errors st) profile))
      [CallProfileValidate mets_path; CallProfileResults; CallProfileResultsDict].

(** The runs of the block guarded by the structure status. *)
Inductive SchemaStageRun (details : StructureDetails) (st : Locals)
  : result Locals -> Log -> Prop :=
| Schema_skipped :
    structure_status details <> WellFormed ->
    SchemaStageRun details st (Ok st) []
| Schema_init_raises e :
    structure_status details = WellFormed ->
    MetsValidator_init fs (path details) = Raise e ->
    SchemaStageRun details st (Raise e) [NewMetsValidator (path details)]
| Schema_validate_raises validator e :
    structure_status details = WellFormed ->
    MetsValidator_init fs (path details) = Ok validator ->
    validate_mets fs validator (os_path_join (path details) "METS.xml") = Raise e ->
    SchemaStageRun details st (Raise e)
      [NewMetsValidator (path details);
       CallValidateMets (os_path_join (path details) "METS.xml")]
| Schema_results_dict_raises validator answer validator' e :
    structure_status details = WellFormed ->
    MetsValidator_init fs (path details) = Ok validator ->
    validate_mets fs validator (os_path_join (path details) "METS.xml")
      = Ok (answer, validator') ->
    mets_get_results_dict validator' = Raise e ->
    SchemaStageRun details st (Raise e)
      [NewMetsValidator (path details);
       CallValidateMets (os_path_join (path details) "METS.xml");
       CallMetsResultsDict]
| Schema_validated validator answer validator' results_dict out evs :
    structure_status details = WellFormed ->
    MetsValidator_init fs (path details) = Ok validator ->
    validate_mets fs validator (os_path_join (path details) "METS.xml")
      = Ok (answer, validator') ->
    mets_get_results_dict validator' = Ok results_dict ->
    ProfileStageRun (os_path_join (path details) "METS.xml")
      (mkLocals answer (l_prof_results st) (l_prof_results_dict st)
         results_dict (validation_errors validator') (l_profile st))
      out evs ->
    SchemaStageRun details st out
      ([NewMetsValidator (path details);
        CallValidateMets (os_path_join (path details) "METS.xml");
        CallMetsResultsDict] ++ evs).

(** The variables as lines 128-134 initialise them. *)
Definition initial_locals (profile : ProfObj) : Locals :=
  mkLocals PyNone (PyDict []) (PyDict []) (PyDict []) [] profile.

(** The tuple of line 151, from the variables as the stages left them. *)
Definition report_of (sdict : PyVal) (details : StructureDetails) (st : Locals)
  : ValidateResult :=
  mkValidateResult sdict (l_prof_results_dict st) (l_mets_results_dict st)
    details (l_schema_result st) (l_schema_errors st) NAMES
    (is_valid (l_profile st)) (l_prof_results st).

(** The runs of [validate]. *)
Inductive ValidateRun (to_validate : string)
  : result ValidateResult -> Log -> Prop :=
| Structure_raises e :
    validate_package_structure_dict fs to_validate = Raise e ->
    ValidateRun to_validate (Raise e) [CallStructure to_validate]
| Profile_init_raises sdict details e :
    validate_package_structure_dict fs to_validate = Ok (sdict, details) ->
    ValidationProfile_init fs = Raise e ->
    ValidateRun to_validate (Raise e)
      [CallStructure to_validate; NewValidationProfile]
| Stage_raises sdict details profile e evs :
    validate_package_structure_dict fs to_validate = Ok (sdict, details) ->
    ValidationProfile_init fs = Ok profile ->
    SchemaStageRun details (initial_locals profile) (Raise e) evs ->
    ValidateRun to_validate (Raise e)
      ([CallStructure to_validate; NewValidationProfile] ++ evs)
| Returns sdict details profile st evs :
    validate_package_structure_dict fs to_validate = Ok (sdict, details) ->
    ValidationProfile_init fs = Ok profile ->
    SchemaStageRun details (initial_locals profile) (Ok st) evs ->
    ValidateRun to_validate (Ok (report_of sdict details st))
      ([CallStructure to_validate; NewValidationProfile] ++ evs).

(** Every call that the run makes returns: the structure check and the
    constructor of the profile; when the structure is well formed, the
    three calls of the schema stage; when [validate_mets] answered [True],
    the three calls of the profile stage. What the calls report (a status,
    a validity) is not constrained. *)
Definition collaborators_return (to_validate : string) : Prop :=
  exists sdict details profile,
    validate_package_structure_dict fs to_validate = Ok (sdict, details)
    /\ ValidationProfile_init fs = Ok profile
    /\ (structure_status details = WellFormed ->
        exists validator answer validator' results_dict,
          MetsValidator_init fs (path details) = Ok validator
          /\ validate_mets fs validator (os_path_join (path details) "METS.xml")
             = Ok (answer, validator')
          /\ mets_get_results_dict validator' = Ok results_dict
          /\ (answer = PyBool true ->
              exists profile' results prof_dict,
                profile_validate fs profile
                  (os_path_join (path details) "METS.xml") = Ok profile'
                /\ profile_get_results profile' = Ok results
                /\ profile_get_results_dict profile' = Ok prof_dict)).

(** The dictionary of lines 60-69, from the metadata and a result of
    [validate]. *)
Definition validation_result_of (filename filepath : string) (filesize : Z)
    (sha1_hash : string) (r : ValidateResult) : PyVal :=
  PyDict [("metadata",
           PyDict [("filename", PyStr filename); ("filepath", PyStr filepath);
                   ("filesize", PyInt filesize); ("sha1", PyStr sha1_hash)]);
          ("structure", struct_dict r);
          ("profile", prof_results_dict r);
          ("mets", mets_results_dict r)].

End Runs.

(** ** Collaborators that keep state between calls *)

(** The collaborators as a Python process has them: besides the package
    store, a call may read and change what the process keeps between calls
    (module globals, class attributes, caches), here [Process]. A call
    returns its outcome and the process state it leaves; reading an
    attribute returns a value and changes nothing. *)
Class StatefulCollaborators (FS : Type) : Type := {
  Process : Type;
  StMetsObj : Type;
  StProfObj : Type;
  st_validate_package_structure_dict :
    FS -> string -> Process -> result (PyVal * StructureDetails) * Process;
  st_MetsValidator_init : FS -> string -> Process -> result StMetsObj * Process;
  st_validate_mets :
    FS -> StMetsObj -> string -> Process -> result (PyVal * StMetsObj) * Process;
  st_mets_get_results_dict : StMetsObj -> Process -> result PyVal * Process;
  st_validation_errors : StMetsObj -> Process -> list SchemaError;
  st_ValidationProfile_init : FS -> Process -> result StProfObj * Process;
  st_profile_validate :
    FS -> StProfObj -> string -> Process -> result StProfObj * Process;
  st_profile_get_results : StProfObj -> Process -> result PyVal * Process;
  st_profile_get_results_dict : StProfObj -> Process -> result PyVal * Process;
  st_is_valid : StProfObj -> Process -> bool;
  st_NAMES : Process -> PyVal
}.

(** A computation on the process state and the log. *)
Definition MS (P A : Type) : Type := P * Log -> result A * (P * Log).

Definition ret_in {P A : Type} (a : A) : MS P A := fun s => (Ok a, s).

Definition bind_in {P A B : Type} (m : MS P A) (k : A -> MS P B) : MS P B :=
  fun s =>
    match m s with
    | (Ok a, s') => k a s'
    | (Raise e, s') => (Raise e, s')
    end.

(** Calling a collaborator in the current process state. *)
Definition call_in {P A : Type} (ev : Event) (f : P -> result A * P) : MS P A :=
  fun s =>
    match f (fst s) with
    | (outcome, process) => (outcome, (process, snd s ++ [ev]))
    end.

(** Reading an attribute in the current process state. *)
Definition read_in {P A : Type} (f : P -> A) : MS P A :=
  fun s => (Ok (f (fst s)), s).

(** The outcome of a computation does not depend on the state it starts
    from. *)
Definition oblivious {P A : Type} (m : MS P A) : Prop :=
  forall s s', fst (m s) = fst (m s').

Declare Scope process_scope.
Delimit Scope process_scope with process.
Notation "x <- m ;; k" := (bind_in m (fun x => k))
  (at level 100, m at next level, right associativity) : process_scope.
Notation "' pat <- m ;; k" := (bind_in m (fun x => match x with pat => k end))
  (at level 100, pat pattern, m at next level, right associativity)
  : process_scope.

Section StatefulOrchestrator.

Context {FS : Type} {SC : StatefulCollaborators FS}.
Variable fs : FS.

Record ProcessLocals : Type := mkProcessLocals {
  p_schema_result : PyVal;
  p_prof_results : PyVal;
  p_prof_results_dict : PyVal;
  p_mets_results_dict : PyVal;
  p_schema_errors : list SchemaError;
  p_profile : StProfObj
}.

(** Lines 144-147, in a process. *)
Definition profile_stage_in_process (mets_path : string) (st : ProcessLocals)
  : MS Process ProcessLocals :=
  (if is_True (p_schema_result st) then
     profile <- call_in (CallProfileValidate mets_path)
                        (st_profile_validate fs (p_profile st) mets_path) ;;
     prof_results <- call_in CallProfileResults (st_profile_get_results profile) ;;
     prof_results_dict <- call_in CallProfileResultsDict
                                  (st_profile_get_results_dict profile) ;;
     ret_in (mkProcessLocals (p_schema_result st) prof_results prof_results_dict
               (p_mets_results_dict st) (p_schema_errors st) profile)
   else ret_in st)%process.

(** Lines 136-147, in a process. *)
Definition schema_stage_in_process (details : StructureDetails)
    (st : ProcessLocals) : MS Process ProcessLocals :=
  (if StructureStatus_eqb (structure_status details) WellFormed then
     validator <- call_in (NewMetsValidator (path details))
                          (st_MetsValidator_init fs (path details)) ;;
     let mets_path := os_path_join (path details) "METS.xml" in
     ' (schema_result, validator) <-
         call_in (CallValidateMets mets_path)
                 (st_validate_mets fs validator mets_path) ;;
     mets_results_dict <- call_in CallMetsResultsDict
                                  (st_mets_get_results_dict validator) ;;
     schema_errors <- read_in (st_validation_errors validator) ;;
     profile_stage_in_process mets_path
       (mkProcessLocals schema_result (p_prof_results st)
          (p_prof_results_dict st) mets_results_dict schema_errors
          (p_profile st))
   else ret_in st)%process.

(** [validate(to_validate)], lines 124-151, in a process: every call acts
    on the process state the calls before it left, and the class attribute
    [NAMES] and the attribute [is_valid] are read at the end. *)
Definition validate_in_process (to_validate : string)
  : MS Process ValidateResult :=
  (' (struct_dict, struct_details) <-
       call_in (CallStructure to_validate)
               (st_validate_package_structure_dict fs to_validate) ;;
   profile <- call_in NewValidationProfile (st_ValidationProfile_init fs) ;;
   st <- schema_stage_in_process struct_details
           (mkProcessLocals PyNone (PyDict []) (PyDict []) (PyDict []) []
              profile) ;;
   prof_names <- read_in st_NAMES ;;
   schematron_result <- read_in (st_is_valid (p_profile st)) ;;
   ret_in (mkValidateResult struct_dict (p_prof_results_dict st)
             (p_mets_results_dict st) struct_details (p_schema_result st)
             (p_schema_errors st) prof_names schematron_result
             (p_prof_results st)))%process.

(** The package, the schema and the profile are the same whenever they are
    consulted: what a collaborator answers, and what an attribute reads,
    does not depend on the state the process is in (the state itself may
    change with every call). *)
Record SameAnswers : Prop := {
  same_structure : forall to_validate p q,
    fst (st_validate_package_structure_dict fs to_validate p)
    = fst (st_validate_package_structure_dict fs to_validate q);
  same_MetsValidator : forall root p q,
    fst (st_MetsValidator_init fs root p) = fst (st_MetsValidator_init fs root q);
  same_validate_mets : forall validator mets_path p q,
    fst (st_validate_mets fs validator mets_path p)
    = fst (st_validate_mets fs validator mets_path q);
  same_mets_results_dict : forall validator p q,
    fst (st_mets_get_results_dict validator p)
    = fst (st_mets_get_results_dict validator q);
  same_validation_errors : forall validator p q,
    st_validation_errors validator p = st_validation_errors validator q;
  same_ValidationProfile : forall p q,
    fst (st_ValidationProfile_init fs p) = fst (st_ValidationProfile_init fs q);
  same_profile_validate : forall profile mets_path p q,
    fst (st_profile_validate fs profile mets_path p)
    = fst (st_profile_validate fs profile mets_path q);
  same_profile_results : forall profile p q,
    fst (st_profile_get_results profile p)
    = fst (st_profile_get_results profile q);
  same_profile_results_dict : forall profile p q,
    fst (st_profile_get_results_dict profile p)
    = fst (st_profile_get_results_dict profile q);
  same_is_valid : forall profile p q,
    st_is_valid profile p = st_is_valid profile q;
  same_NAMES : forall p q, st_NAMES p = st_NAMES q
}.

End StatefulOrchestrator.

(** ** The structure checker, from the specification *)

Module StructureChecker.

(** Modelled from the spec: the package store. The module
    [eark_validator.infopacks.information_package] is not part of the
    sources at hand; a package is a tree of files and directories found at
    a root path. *)
Inductive Entry : Type :=
| File (name : string)
| Dir (name : string) (children : list Entry).

Definition entry_name (e : Entry) : string :=
  match e with
  | File name => name
  | Dir name _ => name
  end.

Definition FileSystem : Type := list (string * Entry).

Fixpoint resolve (root : string) (disk : FileSystem) : option Entry :=
  match disk with
  | [] => None
  | (p, e) :: rest => if String.eqb root p then Some e else resolve root rest
  end.

Definition is_file_named (name : string) (e : Entry) : bool :=
  match e with
  | File n => String.eqb n name
  | Dir _ _ => false
  end.

(** The fixed relative location of the metadata file. *)
Definition metadata_file : string := "METS.xml".

Definition has_metadata_file_in (children : list Entry) : bool :=
  existsb (is_file_named metadata_file) children.

(** A package has its metadata file when its root is a directory that holds
    a file [METS.xml]. *)
Definition has_metadata_file (disk : FileSystem) (root : string) : bool :=
  match resolve root disk with
  | Some (Dir _ children) => has_metadata_file_in children
  | _ => false
  end.

Section Checker.

(** Modelled from the spec: which top-level entries are disallowed, and
    with which severity, is configuration supplied from outside (section 9
    of the specification). *)
Variable disallowed : string -> option Severity.

(** Constraint (b): the metadata file is at its fixed relative path. *)
Definition metadata_findings (rel : string) (children : list Entry) : list Finding :=
  if has_metadata_file_in children then []
  else [mkFinding (os_path_join rel metadata_file) "missing metadata file" SevError].

(** Constraint (c): no disallowed entry at the top level. *)
Fixpoint disallowed_findings (rel : string) (children : list Entry) : list Finding :=
  match children with
  | [] => []
  | e :: rest =>
      match disallowed (entry_name e) with
      | Some sev =>
          mkFinding (os_path_join rel (entry_name e)) "disallowed entry" sev
          :: disallowed_findings rel rest
      | None => disallowed_findings rel rest
      end
  end.

(** Constraints (b) to (d) on a container: (d) applies the same rules to
    every directory under [representations], as deep as the tree goes. Every
    violated constraint adds a finding; nothing stops at the first one. *)
Fixpoint check_container (rel : string) (e : Entry) {struct e} : list Finding :=
  match e with
  | File _ => [mkFinding rel "not a readable container" SevError]
  | Dir _ children =>
      metadata_findings rel children
      ++ disallowed_findings rel children
      ++ (fix over_entries (entries : list Entry) : list Finding :=
            match entries with
            | [] => []
            | File _ :: rest => over_entries rest
            | Dir name representations :: rest =>
                (if String.eqb name "representations" then
                   (fix over_representations (reps : list Entry) : list Finding :=
                      match reps with
                      | [] => []
                      | File _ :: more => over_representations more
                      | (Dir rep_name _ as rep) :: more =>
                          check_container
                            (os_path_join (os_path_join rel "representations") rep_name)
                            rep
                          ++ over_representations more
                      end) representations
                 else [])
                ++ over_entries rest
            end) children
  end.

(** Constraint (a), then the container rules. *)
Definition collect_findings (disk : FileSystem) (root : string) : list Finding :=
  match resolve root disk with
  | None => [mkFinding "" "package root does not exist" SevError]
  | Some e => check_container "" e
  end.

Definition is_error (f : Finding) : bool :=
  match finding_severity f with
  | SevError => true
  | _ => false
  end.

(** [WellFormed] iff no finding of error severity was recorded. *)
Definition status_of (found : list Finding) : StructureStatus :=
  if existsb is_error found then NotWellFormed else WellFormed.

Definition check_structure (disk : FileSystem) (root : string) : StructureDetails :=
  let found := collect_findings disk root in
  mkStructureDetails root (status_of found) found.

Definition status_name (s : StructureStatus) : string :=
  match s with
  | Unknown => "Unknown"
  | NotWellFormed => "NotWellFormed"
  | WellFormed => "WellFormed"
  end.

Definition finding_to_dict (f : Finding) : PyVal :=
  PyDict [("path", PyStr (finding_path f));
          ("message", PyStr (finding_condition f))].

Definition details_to_dict (d : StructureDetails) : PyVal :=
  PyDict [("status", PyStr (status_name (structure_status d)));
          ("messages", PyList (map finding_to_dict (findings d)))].

(** Modelled from the spec: [IP.validate_package_structure_dict], the
    structure check with its dictionary rendering. It reports every defect
    as a finding and raises nothing. *)
Definition validate_package_structure_dict_spec (disk : FileSystem) (root : string)
  : result (PyVal * StructureDetails) :=
  let details := check_structure disk root in
  Ok (details_to_dict details, details).

End Checker.

End StructureChecker.

(** ** Scripted collaborators *)

(** A test double: the structure check is given as a function; the schema
    validator and the rule profile answer what the script says. It provides
    concrete runs of [validate]. *)
Module Scripted.

Record Script : Type := mkScript {
  on_ValidationProfile : result bool;       (* the new profile's [is_valid] *)
  on_MetsValidator : result unit;
  on_validate_mets : result PyVal;
  errors_after_validate_mets : list SchemaError;
  on_mets_results_dict : result PyVal;
  on_profile_validate : result bool;        (* [is_valid] after the run *)
  on_profile_results : result PyVal;
  on_profile_results_dict : result PyVal;
  names : PyVal;
  on_getsize : result Z;
  on_sha1 : result string
}.

Definition map_result {A B : Type} (f : A -> B) (r : result A) : result B :=
  match r with
  | Ok a => Ok (f a)
  | Raise e => Raise e
  end.

Definition collaborators {FS : Type}
    (structure : FS -> string -> result (PyVal * StructureDetails))
    (script : Script) : Collaborators FS := {|
  MetsObj := list SchemaError;
  ProfObj := bool;
  validate_package_structure_dict := structure;
  MetsValidator_init := fun _ _ => map_result (fun _ => []) (on_MetsValidator script);
  validate_mets := fun _ _ _ =>
    map_result (fun v => (v, errors_after_validate_mets script)) (on_validate_mets script);
  mets_get_results_dict := fun _ => on_mets_results_dict script;
  validation_errors := fun errors => errors;
  ValidationProfile_init := fun _ => on_ValidationProfile script;
  profile_validate := fun _ _ _ => on_profile_validate script;
  profile_get_results := fun _ => on_profile_results script;
  profile_get_results_dict := fun _ => on_profile_results_dict script;
  is_valid := fun valid => valid;
  NAMES := names script;
  os_path_getsize := fun _ _ => on_getsize script;
  sha1_directory := fun _ _ => on_sha1 script;
  sha1 := fun _ _ => on_sha1 script
|}.

End Scripted.

(** ** Sample packages and scripts *)

Module Samples.

Import StructureChecker Scripted.

(** A conformant package and one without its [METS.xml]. *)
Definition disk : FileSystem :=
  [("/data/ip1",
    Dir "ip1" [File "METS.xml";
               Dir "representations" [Dir "rep1" [File "METS.xml"; Dir "data" []]]]);
   ("/data/ip2",
    Dir "ip2" [Dir "representations" []; File "notes.txt"])].

Definition nothing_disallowed (name : string) : option Severity := None.

Definition sample_names : PyVal :=
  PyDict [("root", PyStr "METS Root"); ("hdr", PyStr "METS Header")].

Definition sample_error : SchemaError :=
  mkSchemaError "Element metsHdr is missing" "METS.xml:2" SevError.

(** The metadata file is schema valid and passes every rule. *)
Definition all_pass : Script :=
  mkScript (Ok false) (Ok tt) (Ok (PyBool true)) [] (Ok (PyDict [("valid", PyBool true)]))
    (Ok true) (Ok (PyDict [("root", PyDict [])]))
    (Ok (PyDict [("root", PyStr "ok")])) sample_names (Ok 4096%Z) (Ok "da39a3ee").

(** The metadata file violates the schema. *)
Definition schema_fails : Script :=
  mkScript (Ok false) (Ok tt) (Ok (PyBool false)) [sample_error]
    (Ok (PyDict [("valid", PyBool false)]))
    (Ok true) (Ok (PyDict [("root", PyDict [])]))
    (Ok (PyDict [("root", PyStr "ok")])) sample_names (Ok 4096%Z) (Ok "da39a3ee").

(** A schema validator that answers [1] instead of [True]. *)
Definition schema_answers_one : Script :=
  mkScript (Ok false) (Ok tt) (Ok (PyInt 1)) [] (Ok (PyDict [("valid", PyBool true)]))
    (Ok true) (Ok (PyDict [("root", PyDict [])]))
    (Ok (PyDict [("root", PyStr "ok")])) sample_names (Ok 4096%Z) (Ok "da39a3ee").

(** A schema validator whose [validate_mets] falls off its end and so
    answers [None]. *)
Definition schema_answers_none : Script :=
  mkScript (Ok false) (Ok tt) (Ok PyNone) [sample_error]
    (Ok (PyDict [("valid", PyBool false)]))
    (Ok true) (Ok (PyDict [("root", PyDict [])]))
    (Ok (PyDict [("root", PyStr "ok")])) sample_names (Ok 4096%Z) (Ok "da39a3ee").

(** The rule sets cannot be loaded. *)
Definition rules_missing : Script :=
  mkScript (Raise (mkPyExc "OSError" "rule set not found")) (Ok tt)
    (Ok (PyBool true)) [] (Ok (PyDict []))
    (Ok true) (Ok (PyDict [])) (Ok (PyDict [])) sample_names
    (Ok 4096%Z) (Ok "da39a3ee").

Definition checker : FileSystem -> string -> result (PyVal * StructureDetails) :=
  validate_package_structure_dict_spec nothing_disallowed.

Definition passing : Collaborators FileSystem := collaborators checker all_pass.
Definition failing_schema : Collaborators FileSystem := collaborators checker schema_fails.
Definition answering_one : Collaborators FileSystem :=
  collaborators checker schema_answers_one.
Definition answering_none : Collaborators FileSystem :=
  collaborators checker schema_answers_none.
Definition no_rules : Collaborators FileSystem :=
  collaborators checker rules_missing.

End Samples.

(** ** Counting collaborators *)

Module ProcessSamples.

Import StructureChecker Scripted Samples.

(** Collaborators that answer as [C] does and count, in the process state,
    the calls made to them since the process started. *)
Definition counting {FS : Type} (C : Collaborators FS) : StatefulCollaborators FS := {|
  Process := nat;
  StMetsObj := MetsObj;
  StProfObj := ProfObj;
  st_validate_package_structure_dict := fun fs to_validate n =>
    (validate_package_structure_dict fs to_validate, S n);
  st_MetsValidator_init := fun fs root n => (MetsValidator_init fs root, S n);
  st_validate_mets := fun fs validator mets_path n =>
    (validate_mets fs validator mets_path, S n);
  st_mets_get_results_dict := fun validator n =>
    (mets_get_results_dict validator, S n);
  st_validation_errors := fun validator _ => validation_errors validator;
  st_ValidationProfile_init := fun fs n => (ValidationProfile_init fs, S n);
  st_profile_validate := fun fs profile mets_path n =>
    (profile_validate fs profile mets_path, S n);
  st_profile_get_results := fun profile n => (profile_get_results profile, S n);
  st_profile_get_results_dict := fun profile n =>
    (profile_get_results_dict profile, S n);
  st_is_valid := fun profile _ => is_valid profile;
  st_NAMES := fun _ => NAMES
|}.

(** Collaborators that answer as [C] does, except that the schema
    validator keeps, in the process state, whether it has validated a METS
    file before, and then answers [False]. *)
Definition validating_once {FS : Type} (C : Collaborators FS)
  : StatefulCollaborators FS := {|
  Process := bool;
  StMetsObj := MetsObj;
  StProfObj := ProfObj;
  st_validate_package_structure_dict := fun fs to_validate used =>
    (validate_package_structure_dict fs to_validate, used);
  st_MetsValidator_init := fun fs root used => (MetsValidator_init fs root, used);
  st_validate_mets := fun fs validator mets_path used =>
    (if used then Ok (PyBool false, validator)
     else validate_mets fs validator mets_path,
     true);
  st_mets_get_results_dict := fun validator used =>
    (mets_get_results_dict validator, used);
  st_validation_errors := fun validator _ => validation_errors validator;
  st_ValidationProfile_init := fun fs used => (ValidationProfile_init fs, used);
  st_profile_validate := fun fs profile mets_path used =>
    (profile_validate fs profile mets_path, used);
  st_profile_get_results := fun profile used =>
    (profile_get_results profile, used);
  st_profile_get_results_dict := fun profile used =>
    (profile_get_results_dict profile, used);
  st_is_valid := fun profile _ => is_valid profile;
  st_NAMES := fun _ => NAMES
|}.

End ProcessSamples.

(** ** The command line *)

(** [ALLOWED_EXTENSIONS], line 15; the set is only tested for membership. *)
Definition ALLOWED_EXTENSIONS : list string := ["zip"; "tar"; "gz"; "gzip"].

(** [extension in ALLOWED_EXTENSIONS]. *)
Definition allowed_extension (extension : string) : bool :=
  existsb (String.eqb extension) ALLOWED_EXTENSIONS.

(** [c.lower()] for a character of the ASCII range. A string of the model
    is the sequence of the bytes of a Python string; [str.lower()] on
    characters outside ASCII is not modelled, their bytes are kept, so
    [lower] is [str.lower()] on ASCII strings ([is_ascii]) only. *)
Definition lower_ascii (c : ascii) : ascii :=
  let n := nat_of_ascii c in
  if Nat.leb 65 n && Nat.leb n 90 then ascii_of_nat (n + 32) else c.

(** [s.lower()], for an ASCII string. *)
Fixpoint lower (s : string) : string :=
  match s with
  | EmptyString => EmptyString
  | String c rest => String (lower_ascii c) (lower rest)
  end.

(** [s.isascii()]. *)
Fixpoint is_ascii (s : string) : bool :=
  match s with
  | EmptyString => true
  | String c rest => Nat.ltb (nat_of_ascii c) 128 && is_ascii rest
  end.

(** The text before the last dot, and the text from that dot on. *)
Fixpoint split_at_last_dot (s : string) : option (string * string) :=
  match s with
  | EmptyString => None
  | String c rest =>
      match split_at_last_dot rest with
      | Some (stem, ext) => Some (String c stem, ext)
      | None => if Ascii.eqb c "." then Some (EmptyString, String c rest) else None
      end
  end.

Fixpoint all_dots (s : string) : bool :=
  match s with
  | EmptyString => true
  | String c rest => Ascii.eqb c "." && all_dots rest
  end.

(** [os.path.splitext(p)[-1]]: the text from the last dot of the last path
    component, when something other than dots stands before that dot. *)
Definition os_path_splitext_ext (p : string) : string :=
  match split_at_last_dot (os_path_basename p) with
  | Some (stem, ext) => if all_dots stem then "" else ext
  | None => ""
  end.

(** [c in s]. *)
Fixpoint contains (c : ascii) (s : string) : bool :=
  match s with
  | EmptyString => false
  | String c' rest => Ascii.eqb c' c || contains c rest
  end.

(** [s[1:]]. *)
Definition drop_first (s : string) : string :=
  match s with
  | EmptyString => EmptyString
  | String _ rest => rest
  end.

(** [os.path.splitext(package)[-1][1:].lower()], line 39. *)
Definition extension_of (package : string) : string :=
  lower (drop_first (os_path_splitext_ext package)).

(** What [cli] asks the operating system and [click]. *)
Class CommandLine (FS : Type) : Type := {
  (** [os.path.isfile(package)] and [os.path.isdir(package)] *)
  os_path_isfile : FS -> string -> bool;
  os_path_isdir : FS -> string -> bool;
  (** [click.get_current_context().get_help()] *)
  get_help : string;
  (** The file system after [create_directory(directory_path)] (an
      existing directory is left as it is, lines 95-98), after
      [open(file_path, "w")], and after the data was written to the open
      file in a format. *)
  fs_makedirs : FS -> string -> FS;
  fs_open : FS -> string -> FS;
  fs_write : FS -> string -> string -> PyVal -> FS
}.

(** The events that change the file system. *)
Definition Event_is_write (ev : Event) : bool :=
  match ev with
  | MakeDirs _ | OpenFile _ | WriteFile _ _ _ => true
  | _ => false
  end.

(** The file system after one logged event: only the writes of
    [hardcopy_file] change it. *)
Definition fs_after {FS : Type} {CL : CommandLine FS} (fs : FS) (ev : Event) : FS :=
  match ev with
  | MakeDirs directory_path => fs_makedirs fs directory_path
  | OpenFile file_path => fs_open fs file_path
  | WriteFile format file_path data => fs_write fs file_path format data
  | _ => fs
  end.

(** The file system after a sequence of events. *)
Definition written {FS : Type} {CL : CommandLine FS} (fs : FS) (events : Log) : FS :=
  fold_left fs_after events fs.

Section Cli.

Context {FS : Type} {C : Collaborators FS} {CL : CommandLine FS}.
Variable fs : FS.

(** The body of the loop of lines 37-47, for one package. *)
Definition cli_package (json xml hardcopy : bool) (package : string) : M unit :=
  if os_path_isfile fs package then
    let extension := extension_of package in
    if allowed_extension extension then
      process_entity fs package extension xml json hardcopy ;;; ret tt
    else
      emit (EchoText (package ++ " has an invalid extension."))
  else if os_path_isdir fs package then
    process_entity fs package "directory" xml json hardcopy ;;; ret tt
  else
    emit (EchoText (package ++ " is not a valid file or folder.")).

(** The packages [cli] hands to [process_entity]. *)
Definition eligible (package : string) : bool :=
  if os_path_isfile fs package then allowed_extension (extension_of package)
  else os_path_isdir fs package.

(** The extension [cli] passes to [process_entity] for a package. *)
Definition extension_for (package : string) : string :=
  if os_path_isfile fs package then extension_of package else "directory".

(** The line [cli] prints for a package it does not process. *)
Definition rejection (package : string) : Event :=
  if os_path_isfile fs package
  then EchoText (package ++ " has an invalid extension.")
  else EchoText (package ++ " is not a valid file or folder.").

End Cli.

Section CliLoop.

Context {FS : Type} {C : Collaborators FS} {CL : CommandLine FS}.

(** [for package in packages: ...]. A turn of the loop sees the file
    system as the turns before it left it: what [hardcopy_file] created
    while an earlier package was processed is there when a later package
    is tested with [os.path.isfile] and [os.path.isdir]. *)
Fixpoint cli_packages (fs : FS) (json xml hardcopy : bool)
    (packages : list string) : M unit :=
  match packages with
  | [] => ret tt
  | package :: rest =>
      fun log =>
        match cli_package fs json xml hardcopy package log with
        | (Ok _, log') =>
            cli_packages (written fs (skipn (List.length log) log'))
              json xml hardcopy rest log'
        | (Raise e, log') => (Raise e, log')
        end
  end.

(** [cli(ctx, json, xml, hardcopy, packages)], lines 28-47. *)
Definition cli (fs : FS) (json xml hardcopy : bool) (packages : list string)
  : M unit :=
  if Nat.eqb (List.length packages) 0 then emit (EchoText get_help)
  else cli_packages fs json xml hardcopy packages.

(** The file system as the turns for [packages] leave it. *)
Fixpoint file_system_after (fs : FS) (json xml hardcopy : bool)
    (packages : list string) : FS :=
  match packages with
  | [] => fs
  | package :: rest =>
      file_system_after
        (written fs (snd (cli_package fs json xml hardcopy package [])))
        json xml hardcopy rest
  end.

End CliLoop.

(** ** Describing the logs *)

(** The calls of a run of [validate] that goes through all its stages, for
    a package whose structure details carry the path [root]. *)
Definition call_sequence (to_validate root : string) : Log :=
  [CallStructure to_validate; NewValidationProfile;
   NewMetsValidator root;
   CallValidateMets (os_path_join root "METS.xml");
   CallMetsResultsDict;
   CallProfileValidate (os_path_join root "METS.xml");
   CallProfileResults; CallProfileResultsDict].

Definition Event_is_structure_call (ev : Event) : bool :=
  match ev with
  | CallStructure _ => true
  | _ => false
  end.

(** The events of file and console output. *)
Definition Event_is_output (ev : Event) : bool :=
  match ev with
  | Echo _ _ | EchoText _ | MakeDirs _ | OpenFile _ | WriteFile _ _ _ => true
  | _ => false
  end.

(** [data] is a [list], a [dict] or a [set]: the three tests of
    [write_data_to_file_json]. *)
Definition is_container (data : PyVal) : bool :=
  match data with
  | PyList _ | PyDict _ | PySet _ => true
  | _ => false
  end.

(** The hash call [process_entity] makes, lines 55-58. *)
Definition hash_event (extension entity : string) : Event :=
  if String.eqb extension "directory" then CallSha1Directory entity
  else CallSha1 entity.

(** What [hardcopy_file] logs for a dictionary. *)
Definition hardcopy_events (filename extension sha1_hash : string) (data : PyVal)
    (verbose : bool) (format : string) : Log :=
  (if verbose then
     [EchoText (filename ++ " is a valid file with extension " ++ extension
                ++ " and SHA1: " ++ sha1_hash ++ " checksum.");
      EchoText "Working..."]
   else [])
  ++ [MakeDirs sha1_hash]
  ++ (if String.eqb format "json" then
        [OpenFile (os_path_join sha1_hash ("ip_validator." ++ filename ++ ".json"));
         WriteFile "json"
           (os_path_join sha1_hash ("ip_validator." ++ filename ++ ".json")) data]
      else
        [OpenFile (os_path_join sha1_hash ("ip_validator." ++ filename ++ ".xml"));
         WriteFile "xml"
           (os_path_join sha1_hash ("ip_validator." ++ filename ++ ".xml")) data]).

(** What lines 71-80 of [process_entity] log for the report [data]. *)
Definition output_events (filename extension sha1_hash : string) (data : PyVal)
    (xml json hardcopy : bool) : Log :=
  if xml then
    Echo "xml" data
    :: (if hardcopy
        then hardcopy_events filename extension sha1_hash data false "xml"
        else [])
  else if json then
    Echo "json" data
    :: (if hardcopy
        then hardcopy_events filename extension sha1_hash data false "json"
        else [])
  else if hardcopy
    then hardcopy_events filename extension sha1_hash data true "json"
    else [].

(** ** A sample command line *)

Module CliSamples.

Import StructureChecker Scripted Samples.

(** Two package directories, an archive with an upper-case extension and a
    text file. *)
Definition shelf : FileSystem :=
  [("/data/ip1", Dir "ip1" [File "METS.xml"]);
   ("/data/ip2", Dir "ip2" [File "notes.txt"]);
   ("/data/ip3.tar.GZ", File "ip3.tar.GZ");
   ("/data/notes.txt", File "notes.txt")].

Definition command_line : CommandLine FileSystem := {|
  os_path_isfile := fun disk p =>
    match resolve p disk with Some (File _) => true | _ => false end;
  os_path_isdir := fun disk p =>
    match resolve p disk with Some (Dir _ _) => true | _ => false end;
  get_help := "Usage: ip-check [OPTIONS] [PACKAGES]...";
  fs_makedirs := fun disk directory_path =>
    match resolve directory_path disk with
    | Some _ => disk
    | None => disk ++ [(directory_path, Dir (os_path_basename directory_path) [])]
    end;
  fs_open := fun disk file_path =>
    match resolve file_path disk with
    | Some _ => disk
    | None => disk ++ [(file_path, File (os_path_basename file_path))]
    end;
  fs_write := fun disk _ _ _ => disk
|}.

(** The size of the package cannot be read. *)
Definition unreadable : Script :=
  mkScript (Ok false) (Ok tt) (Ok (PyBool true)) [] (Ok (PyDict []))
    (Ok true) (Ok (PyDict [])) (Ok (PyDict [])) sample_names
    (Raise (mkPyExc "PermissionError" "/data/ip1")) (Ok "da39a3ee").

(** The rule sets cannot be loaded. *)
Definition broken_rules : Script :=
  mkScript (Raise (mkPyExc "OSError" "schematron rules not found")) (Ok tt)
    (Ok (PyBool true)) [] (Ok (PyDict []))
    (Ok true) (Ok (PyDict [])) (Ok (PyDict [])) sample_names
    (Ok 4096%Z) (Ok "da39a3ee").

(** The package cannot be read at all. *)
Definition unreadable_package : Collaborators FileSystem :=
  collaborators (fun _ _ => Raise (mkPyExc "OSError" "cannot list the package"))
    all_pass.

Definition unreadable_size : Collaborators FileSystem :=
  collaborators checker unreadable.
Definition without_rules : Collaborators FileSystem :=
  collaborators checker broken_rules.

End CliSamples.

(** * Properties of the orchestrator *)

(** ** The log is only appended to *)

Lemma parametric_ret {A : Type} (a : A) : parametric (ret a).
Proof. intros log. unfold ret. simpl. now rewrite app_nil_r. Qed.

Lemma parametric_raise {A : Type} (e : PyExc) : parametric (@raise A e).
Proof. intros log. unfold raise. simpl. now rewrite app_nil_r. Qed.

Lemma parametric_call {A : Type} (ev : Event) (x : result A) : parametric (call ev x).
Proof. intros log. reflexivity. Qed.

Lemma parametric_emit (ev : Event) : parametric (emit ev).
Proof. intros log. reflexivity. Qed.

Lemma parametric_bind {A B : Type} (m : M A) (k : A -> M B) :
  parametric m -> (forall a, parametric (k a)) -> parametric (bind m k).
Proof.
  intros Hm Hk log. unfold bind. rewrite (Hm log).
  destruct (m []) as [[a | e] l0]; simpl.
  - rewrite (Hk a (log ++ l0)), (Hk a l0). simpl. now rewrite app_assoc.
  - reflexivity.
Qed.

Ltac parametric_step :=
  first [ apply parametric_bind; [ | intros ? ]
        | apply parametric_ret | apply parametric_call
        | apply parametric_emit | apply parametric_raise ].

Section Properties.

Context {FS : Type} {C : Collaborators FS}.

Lemma parametric_profile_stage (fs : FS) (mets_path : string) (st : Locals) :
  parametric (profile_stage fs mets_path st).
Proof.
  unfold profile_stage. destruct (is_True (l_schema_result st));
    repeat parametric_step.
Qed.

Lemma parametric_schema_stage (fs : FS) (details : StructureDetails) (st : Locals) :
  parametric (schema_stage fs details st).
Proof.
  unfold schema_stage.
  destruct (StructureStatus_eqb (structure_status details) WellFormed);
    [ | apply parametric_ret ].
  parametric_step; [ parametric_step | ].
  parametric_step; [ parametric_step | ].
  destruct a0 as [schema_result validator].
  parametric_step; [ parametric_step | ].
  apply parametric_profile_stage.
Qed.

Lemma parametric_validate (fs : FS) (to_validate : string) :
  parametric (validate fs to_validate).
Proof.
  unfold validate.
  parametric_step; [ parametric_step | ].
  destruct a as [sdict details].
  parametric_step; [ parametric_step | ].
  parametric_step; [ apply parametric_schema_stage | ].
  parametric_step.
Qed.

(** Every run of [validate] is the run from the empty log, shifted. *)
Lemma validate_run (fs : FS) (to_validate : string) (log : Log) :
  validate fs to_validate log
  = (outcome fs to_validate, log ++ trace fs to_validate).
Proof. apply parametric_validate. Qed.

(** ** Runs follow the paths *)

Lemma StructureStatus_eqb_eq (a b : StructureStatus) :
  StructureStatus_eqb a b = true <-> a = b.
Proof. destruct a, b; simpl; split; congruence. Qed.

Lemma is_True_eq (v : PyVal) : is_True v = true <-> v = PyBool true.
Proof.
  destruct v as [ | [ | ] | | | | | ]; simpl; split; congruence.
Qed.

Section Run.

Variable fs : FS.

Lemma profile_stage_run (mets_path : string) (st : Locals) :
  ProfileStageRun fs mets_path st
    (fst (profile_stage fs mets_path st []))
    (snd (profile_stage fs mets_path st [])).
Proof.
  unfold profile_stage, bind, call, ret.
  destruct (is_True (l_schema_result st)) eqn:Htrue.
  - apply is_True_eq in Htrue. simpl.
    destruct (profile_validate fs (l_profile st) mets_path) as [profile | e] eqn:Hv;
      simpl; [ | now apply Profile_validate_raises ].
    destruct (profile_get_results profile) as [results | e] eqn:Hr;
      simpl; [ | now apply Profile_results_raise with profile ].
    destruct (profile_get_results_dict profile) as [results_dict | e] eqn:Hd;
      simpl; [ | now apply Profile_results_dict_raises with profile results ].
    now apply Profile_evaluated.
  - simpl. apply Profile_skipped. intros Heq. apply is_True_eq in Heq. congruence.
Qed.

Lemma schema_stage_run (details : StructureDetails) (st : Locals) :
  SchemaStageRun fs details st
    (fst (schema_stage fs details st []))
    (snd (schema_stage fs details st [])).
Proof.
  unfold schema_stage, bind, call, ret.
  destruct (StructureStatus_eqb (structure_status details) WellFormed) eqn:Hwf.
  - apply StructureStatus_eqb_eq in Hwf. simpl.
    destruct (MetsValidator_init fs (path details)) as [validator | e] eqn:Hi;
      simpl; [ | now apply Schema_init_raises ].
    destruct (validate_mets fs validator (os_path_join (path details) "METS.xml"))
      as [[answer validator'] | e] eqn:Hv;
      simpl; [ | now apply Schema_validate_raises with validator ].
    destruct (mets_get_results_dict validator') as [results_dict | e] eqn:Hd;
      simpl; [ | now apply Schema_results_dict_raises with validator answer validator' ].
    rewrite parametric_profile_stage. simpl.
    eapply Schema_validated; eauto. apply profile_stage_run.
  - simpl. apply Schema_skipped. intros Heq.
    apply StructureStatus_eqb_eq in Heq. congruence.
Qed.

(** Every run of [validate] follows one of the paths of [ValidateRun]. *)
Lemma validate_path (to_validate : string) :
  ValidateRun fs to_validate (outcome fs to_validate) (trace fs to_validate).
Proof.
  unfold outcome, trace, validate, bind, call, ret. simpl.
  destruct (validate_package_structure_dict fs to_validate)
    as [[sdict details] | e] eqn:Hs; simpl; [ | now apply Structure_raises ].
  destruct (ValidationProfile_init fs) as [profile | e] eqn:Hp;
    simpl; [ | now apply Profile_init_raises with sdict details ].
  rewrite parametric_schema_stage.
  pose proof (schema_stage_run details (initial_locals profile)) as Hrun.
  fold (initial_locals profile).
  destruct (schema_stage fs details (initial_locals profile) [])
    as [[st | e] evs]; simpl in *.
  - now apply (Returns fs to_validate sdict details profile st evs).
  - now apply Stage_raises with sdict details profile.
Qed.

(** The same, as a case analysis on the first two calls. *)
Lemma validate_cases (to_validate : string) :
  (exists e,
     validate_package_structure_dict fs to_validate = Raise e
     /\ outcome fs to_validate = Raise e
     /\ trace fs to_validate = [CallStructure to_validate])
  \/ (exists sdict details e,
        validate_package_structure_dict fs to_validate = Ok (sdict, details)
        /\ ValidationProfile_init fs = Raise e
        /\ outcome fs to_validate = Raise e
        /\ trace fs to_validate = [CallStructure to_validate; NewValidationProfile])
  \/ (exists sdict details profile out evs,
        validate_package_structure_dict fs to_validate = Ok (sdict, details)
        /\ ValidationProfile_init fs = Ok profile
        /\ SchemaStageRun fs details (initial_locals profile) out evs
        /\ outcome fs to_validate
           = match out with
             | Ok st => Ok (report_of sdict details st)
             | Raise e => Raise e
             end
        /\ trace fs to_validate
           = CallStructure to_validate :: NewValidationProfile :: evs).
Proof.
  pose proof (validate_path to_validate) as Hrun.
  remember (outcome fs to_validate) as out eqn:Hout.
  remember (trace fs to_validate) as evs eqn:Hevs.
  destruct Hrun as [e Hs | sdict details e Hs Hp
                    | sdict details profile e evs Hs Hp Hst
                    | sdict details profile st evs Hs Hp Hst].
  - left. now exists e.
  - right; left. now exists sdict, details, e.
  - right; right. now exists sdict, details, profile, (Raise e), evs.
  - right; right. now exists sdict, details, profile, (Ok st), evs.
Qed.

(** *** What the paths have in common *)

Lemma profile_stage_events mets_path st out evs ev :
  ProfileStageRun fs mets_path st out evs ->
  In ev evs ->
  Event_is_profile_stage ev = true /\ Event_is_schema_stage ev = false
  /\ l_schema_result st = PyBool true.
Proof.
  intros Hrun Hin.
  inversion Hrun; subst; simpl in Hin; intuition (subst; auto).
Qed.

Lemma schema_stage_skipped details st out evs :
  SchemaStageRun fs details st out evs ->
  structure_status details <> WellFormed ->
  out = Ok st /\ evs = [].
Proof. intros Hrun Hne. inversion Hrun; subst; auto; contradiction. Qed.

(** A call of the profile stage is in the log only below a [validate_mets]
    that answered [True]. *)
Lemma schema_stage_profile_events details st out evs ev :
  SchemaStageRun fs details st out evs ->
  In ev evs ->
  Event_is_profile_stage ev = true ->
  structure_status details = WellFormed
  /\ exists validator validator',
       MetsValidator_init fs (path details) = Ok validator
       /\ validate_mets fs validator (os_path_join (path details) "METS.xml")
          = Ok (PyBool true, validator').
Proof.
  intros Hrun Hin Hev.
  destruct Hrun as [Hne | e Hwf Hi | validator e Hwf Hi Hv
                    | validator answer validator' e Hwf Hi Hv Hd
                    | validator answer validator' results_dict out evs
                        Hwf Hi Hv Hd Hprof];
    simpl in Hin.
  - destruct Hin.
  - destruct Hin as [<- | []]; discriminate.
  - destruct Hin as [<- | [<- | []]]; discriminate.
  - destruct Hin as [<- | [<- | [<- | []]]]; discriminate.
  - destruct Hin as [<- | [<- | [<- | Hin]]]; try discriminate.
    destruct (profile_stage_events _ _ _ _ _ Hprof Hin) as (_ & _ & Htrue).
    simpl in Htrue. subst answer. split; [assumption | ].
    now exists validator, validator'.
Qed.

(** The three ways in which the guarded blocks run to their end. *)
Lemma schema_stage_returns details st st' evs :
  SchemaStageRun fs details st (Ok st') evs ->
  (structure_status details <> WellFormed /\ st' = st /\ evs = [])
  \/ (structure_status details = WellFormed
      /\ exists validator answer validator' results_dict,
           MetsValidator_init fs (path details) = Ok validator
           /\ validate_mets fs validator (os_path_join (path details) "METS.xml")
              = Ok (answer, validator')
           /\ mets_get_results_dict validator' = Ok results_dict
           /\ ((answer <> PyBool true
                /\ st' = mkLocals answer (l_prof_results st) (l_prof_results_dict st)
                           results_dict (validation_errors validator') (l_profile st)
                /\ evs = [NewMetsValidator (path details);
                          CallValidateMets (os_path_join (path details) "METS.xml");
                          CallMetsResultsDict])
               \/ (answer = PyBool true
                   /\ exists profile results prof_dict,
                        profile_validate fs (l_profile st)
                          (os_path_join (path details) "METS.xml") = Ok profile
                        /\ profile_get_results profile = Ok results
                        /\ profile_get_results_dict profile = Ok prof_dict
                        /\ st' = mkLocals answer results prof_dict results_dict
                                   (validation_errors validator') profile
                        /\ evs = [NewMetsValidator (path details);
                                  CallValidateMets
                                    (os_path_join (path details) "METS.xml");
                                  CallMetsResultsDict;
                                  CallProfileValidate
                                    (os_path_join (path details) "METS.xml");
                                  CallProfileResults;
                                  CallProfileResultsDict]))).
Proof.
  intros Hrun. remember (Ok st') as out eqn:Hout.
  destruct Hrun as [Hne | e Hwf Hi | validator e Hwf Hi Hv
                    | validator answer validator' e Hwf Hi Hv Hd
                    | validator answer validator' results_dict out evs
                        Hwf Hi Hv Hd Hprof];
    try discriminate.
  - injection Hout as <-. left. auto.
  - right. split; [assumption | ].
    exists validator, answer, validator', results_dict.
    repeat (split; [assumption | ]).
    subst out.
    remember (Ok st') as out eqn:Hout.
    destruct Hprof as [Hne | | | | profile results prof_dict Htrue Hpv Hr Hrd];
      try discriminate; injection Hout as <-; simpl in *.
    + left. auto.
    + right. split; [assumption | ].
      exists profile, results, prof_dict. auto.
Qed.

End Run.

(** ** The claims *)

Section Claims.

Variable fs : FS.
Variable to_validate : string.

(** C1. The schema stage runs, and a schema result is produced, only when
    the structure check returned the status [WellFormed]: if the run called
    [MetsValidator], [validate_mets] or [get_results_dict] of the validator,
    or returned a [schema_result] other than [None], then the structure
    check returned details whose status is [WellFormed]; and when it
    returned [NotWellFormed] or [Unknown], no call of the schema stage is in
    the log and the [schema_result] of the report is [None]. *)
Theorem schema_stage_only_when_WellFormed :
  ((exists ev, In ev (trace fs to_validate) /\ Event_is_schema_stage ev = true)
   \/ (exists r, outcome fs to_validate = Ok r /\ schema_result r <> PyNone) ->
   exists sdict details,
     validate_package_structure_dict fs to_validate = Ok (sdict, details)
     /\ structure_status details = WellFormed)
  /\ (forall sdict details,
        validate_package_structure_dict fs to_validate = Ok (sdict, details) ->
        structure_status details = NotWellFormed
        \/ structure_status details = Unknown ->
        (forall ev, In ev (trace fs to_validate) -> Event_is_schema_stage ev = false)
        /\ (forall r, outcome fs to_validate = Ok r -> schema_result r = PyNone)).
Proof.
  destruct (validate_cases fs to_validate)
    as [(e & Hs & Ho & Ht)
       | [(sdict & details & e & Hs & Hp & Ho & Ht)
         | (sdict & details & profile & out & evs & Hs & Hp & Hst & Ho & Ht)]];
    rewrite Ho, Ht; split.
  - intros [(ev & [<- | []] & Hev) | (r & Hr & _)]; discriminate.
  - intros sdict details Hs'. congruence.
  - intros [(ev & [<- | [<- | []]] & Hev) | (r & Hr & _)]; discriminate.
  - intros sdict' details' Hs' _. split; [ | discriminate ].
    intros ev [<- | [<- | []]]; reflexivity.
  - intros Hran. exists sdict, details. split; [assumption | ].
    destruct (structure_status details) eqn:Hstatus; try reflexivity; exfalso;
      (destruct (schema_stage_skipped fs details _ out evs Hst) as [-> ->];
       [ congruence | ]);
      destruct Hran as [(ev & [<- | [<- | []]] & Hev) | (r & Hr & Hres)];
      try discriminate; injection Hr as <-; apply Hres; reflexivity.
  - intros sdict' details' Hs' Hbad.
    rewrite Hs in Hs'. injection Hs' as <- <-.
    destruct (schema_stage_skipped fs details _ out evs Hst) as [-> ->];
      [ destruct Hbad as [-> | ->]; discriminate | ].
    split.
    + intros ev [<- | [<- | []]]; reflexivity.
    + intros r Hr. injection Hr as <-. reflexivity.
Qed.

(** C2. The rule-profile stage runs only when the schema validation
    succeeded: a call of [profile.validate], [get_results] or
    [get_results_dict] of the profile is in the log only if the structure
    was well formed and [validate_mets] returned [True]; and whenever the
    returned [schema_result] is not [True] (it is [False], or [None] because
    the schema stage never ran), no call of the profile stage is in the log
    and the report holds no profile result: [prof_results] and
    [prof_results_dict] are the dictionaries without an entry they were
    initialised to. *)
Theorem profile_stage_only_when_schema_valid :
  ((exists ev, In ev (trace fs to_validate) /\ Event_is_profile_stage ev = true) ->
   exists sdict details validator validator',
     validate_package_structure_dict fs to_validate = Ok (sdict, details)
     /\ structure_status details = WellFormed
     /\ MetsValidator_init fs (path details) = Ok validator
     /\ validate_mets fs validator (os_path_join (path details) "METS.xml")
        = Ok (PyBool true, validator'))
  /\ (forall r,
        outcome fs to_validate = Ok r ->
        schema_result r <> PyBool true ->
        (forall ev, In ev (trace fs to_validate) -> Event_is_profile_stage ev = false)
        /\ prof_results r = PyDict []
        /\ prof_results_dict r = PyDict []).
Proof.
  destruct (validate_cases fs to_validate)
    as [(e & Hs & Ho & Ht)
       | [(sdict & details & e & Hs & Hp & Ho & Ht)
         | (sdict & details & profile & out & evs & Hs & Hp & Hst & Ho & Ht)]];
    rewrite Ho, Ht; split; try (intros r Hr; discriminate).
  - intros (ev & [<- | []] & Hev). discriminate.
  - intros (ev & [<- | [<- | []]] & Hev); discriminate.
  - intros (ev & [<- | [<- | Hin]] & Hev); try discriminate.
    destruct (schema_stage_profile_events fs _ _ _ _ _ Hst Hin Hev)
      as (Hwf & validator & validator' & Hi & Hv).
    now exists sdict, details, validator, validator'.
  - intros r Hr Hres. destruct out as [st | e]; [ | discriminate ].
    injection Hr as <-. simpl in Hres |- *.
    destruct (schema_stage_returns fs _ _ _ _ Hst)
      as [(Hne & -> & ->)
         | (Hwf & validator & answer & validator' & results_dict & Hi & Hv & Hd
            & [(Hans & -> & ->)
              | (Hans & profile' & results & prof_dict & _ & _ & _ & -> & _)])];
      simpl in *.
    + split; [ | auto ]. intros ev [<- | [<- | []]]; reflexivity.
    + split; [ | auto ].
      intros ev [<- | [<- | [<- | [<- | [<- | []]]]]]; reflexivity.
    + contradiction.
Qed.

(** C4, as the code has it. [validate] returns its tuple (line 151)
    exactly when the calls it makes to its collaborators return: whatever
    status the structure check reports and whatever [validate_mets]
    answers, the run ends with a report, from every log. The orchestrator
    raises nothing of its own, and it catches nothing: an exception raised
    inside a collaborator leaves [validate]. *)
Theorem validate_returns_report :
  collaborators_return fs to_validate <->
  exists r, forall log,
    validate fs to_validate log = (Ok r, log ++ trace fs to_validate).
Proof.
  split.
  - intros (sdict & details & profile & Hs & Hp & Hstage).
    assert (Hok : exists r, outcome fs to_validate = Ok r).
    { destruct (validate_cases fs to_validate)
        as [(e & Hs' & _)
           | [(sdict' & details' & e & Hs' & Hp' & _)
             | (sdict' & details' & profile' & out & evs
                & Hs' & Hp' & Hst & Ho & Ht)]];
        try congruence.
      rewrite Hs in Hs'. injection Hs' as <- <-.
      rewrite Hp in Hp'. injection Hp' as <-.
      rewrite Ho. destruct out as [st | e]; [ eauto | exfalso ].
      remember (@Raise Locals e) as failed eqn:Hout in Hst.
      destruct Hst as [Hne | e' Hwf Hi | validator e' Hwf Hi Hv
                       | validator answer validator' e' Hwf Hi Hv Hd
                       | validator answer validator' results_dict out0 evs0
                           Hwf Hi Hv Hd Hprof];
        try discriminate;
        destruct (Hstage Hwf)
          as (validator0 & answer0 & validator0' & results_dict0
              & Hi0 & Hv0 & Hd0 & Hprofile);
        try congruence.
      rewrite Hi in Hi0. injection Hi0 as <-.
      rewrite Hv in Hv0. injection Hv0 as <- <-.
      subst out0. remember (@Raise Locals e) as failed eqn:Hout in Hprof.
      destruct Hprof as [Hne | e' Htrue Hpv | profile' e' Htrue Hpv Hr
                         | profile' results e' Htrue Hpv Hr Hrd | ];
        try discriminate; simpl in *;
        destruct (Hprofile Htrue)
          as (profile0 & results0 & prof_dict0 & Hpv0 & Hr0 & Hrd0);
        congruence. }
    destruct Hok as [r Hr]. exists r. intros log.
    rewrite validate_run. now rewrite Hr.
  - intros [r Hr]. specialize (Hr []). rewrite validate_run in Hr.
    injection Hr as Hr.
    destruct (validate_cases fs to_validate)
      as [(e & Hs & Ho & Ht)
         | [(sdict & details & e & Hs & Hp & Ho & Ht)
           | (sdict & details & profile & out & evs & Hs & Hp & Hst & Ho & Ht)]];
      try congruence.
    rewrite Hr in Ho. destruct out as [st | e]; [ | discriminate ].
    exists sdict, details, profile. repeat (split; [assumption | ]).
    intros Hwf.
    destruct (schema_stage_returns fs _ _ _ _ Hst)
      as [(Hne & _)
         | (_ & validator & answer & validator' & results_dict & Hi & Hv & Hd
            & [(Hans & _)
              | (Hans & profile' & results & prof_dict & Hpv & Hres & Hrd & _)])];
      [ contradiction | | ];
      exists validator, answer, validator', results_dict;
      repeat (split; [assumption | ]); intros Htrue; [ contradiction | ].
    now exists profile', results, prof_dict.
Qed.


(** C9. In a run that reaches the test of line 144 (the structure is well
    formed and the calls of the schema stage returned), [profile.validate]
    is called if and only if [validate_mets] returned the boolean [True]
    itself; an answer that is truthy but is not [True] leaves every call of
    the profile stage out. *)
Theorem profile_stage_iff_is_True
    (sdict : PyVal) (details : StructureDetails) (profile : ProfObj)
    (validator validator' : MetsObj) (answer results_dict : PyVal) :
  validate_package_structure_dict fs to_validate = Ok (sdict, details) ->
  ValidationProfile_init fs = Ok profile ->
  structure_status details = WellFormed ->
  MetsValidator_init fs (path details) = Ok validator ->
  validate_mets fs validator (os_path_join (path details) "METS.xml")
    = Ok (answer, validator') ->
  mets_get_results_dict validator' = Ok results_dict ->
  (In (CallProfileValidate (os_path_join (path details) "METS.xml"))
      (trace fs to_validate)
   <-> answer = PyBool true)
  /\ (truthy answer = true -> answer <> PyBool true ->
      forall ev, In ev (trace fs to_validate) -> Event_is_profile_stage ev = false).
Proof.
  intros Hs Hp Hwf Hi Hv Hd.
  destruct (validate_cases fs to_validate)
    as [(e & Hs' & _)
       | [(sdict' & details' & e & Hs' & Hp' & _)
         | (sdict' & details' & profile' & out & evs
            & Hs' & Hp' & Hst & Ho & Ht)]];
    try congruence.
  rewrite Hs in Hs'. injection Hs' as <- <-.
  rewrite Hp in Hp'. injection Hp' as <-.
  rewrite Ht.
  destruct Hst as [Hne | e' _ Hi' | validator0 e' _ Hi' Hv'
                   | validator0 answer0 validator0' e' _ Hi' Hv' Hd'
                   | validator0 answer0 validator0' results_dict0 out0 evs0
                       _ Hi' Hv' Hd' Hprof];
    try contradiction; try congruence;
    rewrite Hi in Hi'; injection Hi' as <-; try congruence;
    rewrite Hv in Hv'; injection Hv' as <- <-; try congruence.
  rewrite Hd in Hd'. injection Hd' as <-.
  destruct Hprof; simpl in *.
  - split.
    + split; [ | contradiction ].
      intros [Hin | [Hin | [Hin | [Hin | [Hin | []]]]]]; discriminate.
    + intros _ _ ev [<- | [<- | [<- | [<- | [<- | []]]]]]; reflexivity.
  - split; [ split; auto 10 | contradiction ].
  - split; [ split; auto 10 | contradiction ].
  - split; [ split; auto 10 | contradiction ].
  - split; [ split; auto 10 | contradiction ].
Qed.

(** C10. Every run that returns has constructed one [ValidationProfile],
    right after the structure check and before the test on the status, and
    its [schematron_result] is the [is_valid] of that object: when the
    structure is not well formed or the [schema_result] is not [True],
    [profile.validate] was never called on it and the flag returned is the
    [is_valid] of the object as the constructor left it. *)
Theorem schematron_result_default_when_not_run (r : ValidateResult) :
  outcome fs to_validate = Ok r ->
  exists profile rest,
    ValidationProfile_init fs = Ok profile
    /\ trace fs to_validate
       = CallStructure to_validate :: NewValidationProfile :: rest
    /\ length (filter Event_is_profile_init (trace fs to_validate)) = 1
    /\ (structure_status (struct_details r) <> WellFormed
        \/ schema_result r <> PyBool true ->
        schematron_result r = is_valid profile
        /\ filter Event_is_profile_validate (trace fs to_validate) = []).
Proof.
  intros Hr.
  destruct (validate_cases fs to_validate)
    as [(e & Hs & Ho & Ht)
       | [(sdict & details & e & Hs & Hp & Ho & Ht)
         | (sdict & details & profile & out & evs & Hs & Hp & Hst & Ho & Ht)]];
    try congruence.
  rewrite Hr in Ho. destruct out as [st | e]; [ | discriminate ].
  injection Ho as ->. exists profile, evs. rewrite Ht.
  split; [assumption | ]. split; [reflexivity | ]. simpl.
  destruct (schema_stage_returns fs _ _ _ _ Hst)
    as [(Hne & -> & ->)
       | (Hwf & validator & answer & validator' & results_dict & Hi & Hv & Hd
          & [(Hans & -> & ->)
            | (Hans & profile' & results & prof_dict & _ & _ & _ & -> & ->)])];
    simpl; split; try reflexivity; intros Hskip; try (split; reflexivity).
  destruct Hskip as [Hne | Hne]; contradiction.
Qed.

End Claims.

(** C7. The catalogue [prof_names] of a report is [ValidationProfile.NAMES],
    the same in every report: two runs, on whatever packages and whichever
    stages they ran or skipped, return the same catalogue. *)
Theorem prof_names_is_the_catalogue
    (fs1 fs2 : FS) (package1 package2 : string) (r1 r2 : ValidateResult) :
  outcome fs1 package1 = Ok r1 ->
  outcome fs2 package2 = Ok r2 ->
  prof_names r1 = NAMES /\ prof_names r2 = prof_names r1.
Proof.
  assert (Hnames : forall fs package r,
             outcome fs package = Ok r -> prof_names r = NAMES).
  { intros fs package r Hr.
    destruct (validate_cases fs package)
      as [(e & Hs & Ho & Ht)
         | [(sdict & details & e & Hs & Hp & Ho & Ht)
           | (sdict & details & profile & out & evs & Hs & Hp & Hst & Ho & Ht)]];
      try congruence.
    rewrite Hr in Ho. destruct out as [st | e]; [ | discriminate ].
    injection Ho as ->. reflexivity. }
  intros H1 H2. rewrite (Hnames _ _ _ H1), (Hnames _ _ _ H2). split; reflexivity.
Qed.

End Properties.

(** ** Two runs in one process *)

Lemma oblivious_ret {P A : Type} (a : A) : oblivious (@ret_in P A a).
Proof. intros s s'. reflexivity. Qed.

Lemma oblivious_read {P A : Type} (f : P -> A) :
  (forall p q, f p = f q) -> oblivious (read_in f).
Proof. intros Hf s s'. unfold read_in. simpl. now rewrite (Hf (fst s) (fst s')). Qed.

Lemma oblivious_call {P A : Type} (ev : Event) (f : P -> result A * P) :
  (forall p q, fst (f p) = fst (f q)) -> oblivious (call_in ev f).
Proof.
  intros Hf s s'. unfold call_in. specialize (Hf (fst s) (fst s')).
  destruct (f (fst s)), (f (fst s')). exact Hf.
Qed.

Lemma oblivious_bind {P A B : Type} (m : MS P A) (k : A -> MS P B) :
  oblivious m -> (forall a, oblivious (k a)) -> oblivious (bind_in m k).
Proof.
  intros Hm Hk s s'. unfold bind_in. specialize (Hm s s').
  destruct (m s) as [[a | e] s1], (m s') as [[a' | e'] s1'];
    simpl in Hm; try discriminate; injection Hm as <-;
    [ apply Hk | reflexivity ].
Qed.

Section TwoRuns.

Context {FS : Type} {SC : StatefulCollaborators FS}.
Variable fs : FS.
Hypothesis answers : SameAnswers fs.

Lemma oblivious_profile_stage (mets_path : string) (st : ProcessLocals) :
  oblivious (profile_stage_in_process fs mets_path st).
Proof.
  unfold profile_stage_in_process.
  destruct (is_True (p_schema_result st)); [ | apply oblivious_ret ].
  apply oblivious_bind;
    [ apply oblivious_call, (same_profile_validate fs answers) | intros profile ].
  apply oblivious_bind;
    [ apply oblivious_call, (same_profile_results fs answers) | intros results ].
  apply oblivious_bind;
    [ apply oblivious_call, (same_profile_results_dict fs answers)
    | intros prof_dict ].
  apply oblivious_ret.
Qed.

Lemma oblivious_schema_stage (details : StructureDetails) (st : ProcessLocals) :
  oblivious (schema_stage_in_process fs details st).
Proof.
  unfold schema_stage_in_process.
  destruct (StructureStatus_eqb (structure_status details) WellFormed);
    [ | apply oblivious_ret ].
  apply oblivious_bind;
    [ apply oblivious_call, (same_MetsValidator fs answers) | intros validator ].
  apply oblivious_bind;
    [ apply oblivious_call, (same_validate_mets fs answers)
    | intros [answer validator'] ].
  apply oblivious_bind;
    [ apply oblivious_call, (same_mets_results_dict fs answers)
    | intros results_dict ].
  apply oblivious_bind;
    [ apply oblivious_read, (same_validation_errors fs answers)
    | intros errors ].
  apply oblivious_profile_stage.
Qed.

Lemma oblivious_validate (to_validate : string) :
  oblivious (validate_in_process fs to_validate).
Proof.
  unfold validate_in_process.
  apply oblivious_bind;
    [ apply oblivious_call, (same_structure fs answers)
    | intros [sdict details] ].
  apply oblivious_bind;
    [ apply oblivious_call, (same_ValidationProfile fs answers)
    | intros profile ].
  apply oblivious_bind; [ apply oblivious_schema_stage | intros st ].
  apply oblivious_bind;
    [ apply oblivious_read, (same_NAMES fs answers) | intros names ].
  apply oblivious_bind;
    [ apply oblivious_read, (same_is_valid fs answers) | intros valid ].
  apply oblivious_ret.
Qed.


End TwoRuns.

(** ** The report of [process_entity] *)

Section Report.

Context {FS : Type} {C : Collaborators FS}.

(** A run of [process_entity] that ends has validated the entity, and its
    report holds the three dictionaries of that validation. *)
Lemma process_entity_report (fs : FS) (entity extension : string)
    (xml json hardcopy : bool) (log : Log) (report : PyVal) :
  fst (process_entity fs entity extension xml json hardcopy log) = Ok report ->
  exists r filesize sha1_hash,
    outcome fs entity = Ok r
    /\ report = validation_result_of (os_path_basename entity)
                  (os_path_dirname entity) filesize sha1_hash r.
Proof.
  unfold process_entity, bind at 1 2 3, call at 1.
  destruct (os_path_getsize fs entity) as [filesize | e]; [ | discriminate ].
  set (hash := if (extension =? "directory")%string
               then call (CallSha1Directory entity) (sha1_directory fs entity)
               else call (CallSha1 entity) (sha1 fs entity)).
  assert (Hhash : exists ev x, hash = call ev x)
    by (unfold hash; destruct (extension =? "directory")%string; eauto).
  destruct Hhash as (ev & x & ->). unfold call at 1.
  destruct x as [sha1_hash | e]; [ | discriminate ].
  unfold bind at 1. rewrite validate_run.
  destruct (outcome fs entity) as [r | e]; [ | discriminate ].
  intros Hreport. exists r, filesize, sha1_hash. split; [reflexivity | ].
  unfold bind at 1 in Hreport.
  match type of Hreport with
  | fst (match ?m ?l with _ => _ end) = _ => destruct (m l) as [[[] | e] log']
  end; [ | discriminate ].
  unfold ret in Hreport. simpl in Hreport. injection Hreport as <-.
  reflexivity.
Qed.

(** What a report holds for a stage that was skipped: the values its
    variables were initialised to. *)
Lemma skipped_stage_values (fs : FS) (to_validate : string) (r : ValidateResult) :
  outcome fs to_validate = Ok r ->
  (structure_status (struct_details r) <> WellFormed ->
   schema_result r = PyNone /\ schema_errors r = []
   /\ mets_results_dict r = PyDict []
   /\ trace fs to_validate = [CallStructure to_validate; NewValidationProfile])
  /\ (schema_result r <> PyBool true ->
      prof_results r = PyDict [] /\ prof_results_dict r = PyDict []).
Proof.
  intros Hr.
  destruct (validate_cases fs to_validate)
    as [(e & Hs & Ho & Ht)
       | [(sdict & details & e & Hs & Hp & Ho & Ht)
         | (sdict & details & profile & out & evs & Hs & Hp & Hst & Ho & Ht)]];
    try congruence.
  rewrite Hr in Ho. destruct out as [st | e]; [ | discriminate ].
  injection Ho as ->. rewrite Ht. simpl.
  destruct (schema_stage_returns fs _ _ _ _ Hst)
    as [(Hne & -> & ->)
       | (Hwf & validator & answer & validator' & results_dict & Hi & Hv & Hd
          & [(Hans & -> & ->)
            | (Hans & profile' & results & prof_dict & _ & _ & _ & -> & ->)])];
    simpl; split; intros Hskip; auto; contradiction.
Qed.

(** C5, as the code has it. When a gate fails, the values of the skipped
    stage are the ones [validate] initialised: [schema_result] is [None]
    when the structure is not well formed, but [schema_errors] is the empty
    list and [mets_results_dict], [prof_results] and [prof_results_dict]
    are empty dictionaries; and the report of [process_entity] always has
    the keys [mets] and [profile], bound to those dictionaries. *)
Theorem skipped_stage_fields_are_initial_values
    (fs : FS) (entity extension : string) (xml json hardcopy : bool)
    (log : Log) (r : ValidateResult) (report : PyVal) :
  outcome fs entity = Ok r ->
  fst (process_entity fs entity extension xml json hardcopy log) = Ok report ->
  (structure_status (struct_details r) <> WellFormed ->
   schema_result r = PyNone /\ schema_errors r = []
   /\ mets_results_dict r = PyDict []
   /\ prof_results r = PyDict [] /\ prof_results_dict r = PyDict []
   /\ dict_get "mets" report = Some (PyDict [])
   /\ dict_get "profile" report = Some (PyDict []))
  /\ (schema_result r <> PyBool true ->
      prof_results r = PyDict [] /\ prof_results_dict r = PyDict []
      /\ dict_get "profile" report = Some (PyDict []))
  /\ dict_get "mets" report = Some (mets_results_dict r)
  /\ dict_get "profile" report = Some (prof_results_dict r).
Proof.
  intros Hr Hreport.
  destruct (process_entity_report _ _ _ _ _ _ _ _ Hreport)
    as (r' & filesize & sha1_hash & Hr' & ->).
  rewrite Hr in Hr'. injection Hr' as <-.
  destruct (skipped_stage_values fs entity r Hr) as [Hstructure Hschema].
  simpl. split; [ | split; [ | split; reflexivity ] ].
  - intros Hne. destruct (Hstructure Hne) as (Hnone & Herrors & Hmets & _).
    destruct Hschema as [Hresults Hdict]; [ rewrite Hnone; discriminate | ].
    rewrite Hmets, Hdict. auto 10.
  - intros Hne. destruct (Hschema Hne) as [Hresults Hdict].
    rewrite Hdict. auto.
Qed.

End Report.

(** ** Packages without their metadata file *)

Section MissingMetadata.

Import StructureChecker.

Variable disallowed : string -> option Severity.

(** The structure checker of the specification records an error for a
    package without [METS.xml]: its status is [NotWellFormed]. *)
Lemma check_structure_missing_metadata (disk : FileSystem) (root : string) :
  has_metadata_file disk root = false ->
  structure_status (check_structure disallowed disk root) = NotWellFormed.
Proof.
  unfold has_metadata_file, check_structure, collect_findings, status_of.
  intros Hmissing. simpl.
  destruct (resolve root disk) as [[name | name children] | ]; simpl.
  - reflexivity.
  - unfold metadata_findings. rewrite Hmissing. reflexivity.
  - reflexivity.
Qed.

(** Scenario A: for a package directory without [METS.xml] the finding
    "missing metadata file" is recorded. *)
Lemma check_structure_records_missing_metadata
    (disk : FileSystem) (root name : string) (children : list Entry) :
  resolve root disk = Some (Dir name children) ->
  has_metadata_file_in children = false ->
  In (mkFinding "METS.xml" "missing metadata file" SevError)
     (findings (check_structure disallowed disk root)).
Proof.
  intros Hroot Hmissing. unfold check_structure, collect_findings. simpl.
  rewrite Hroot. simpl. unfold metadata_findings. rewrite Hmissing.
  left. reflexivity.
Qed.

Context {C : Collaborators FileSystem}.

Hypothesis structure_check_is_the_checker :
  forall disk root,
    validate_package_structure_dict disk root
    = validate_package_structure_dict_spec disallowed disk root.

(** C3, as the code has it. For a package without its metadata file the
    structure check yields [NotWellFormed]; the run calls neither the
    schema stage nor the profile stage and returns a report as soon as the
    profile object is constructed. Of the two skipped stages only
    [schema_result] is absent ([None]); the other fields are in the report
    with the values they were initialised to: no schema error, empty
    dictionaries for [mets_results_dict], [prof_results] and
    [prof_results_dict], the [is_valid] of the fresh profile object for
    [schematron_result], and the keys [mets] and [profile] of the report of
    [process_entity] bound to empty dictionaries. *)
Theorem missing_metadata_file_not_well_formed
    (disk : FileSystem) (root : string) :
  has_metadata_file disk root = false ->
  structure_status (check_structure disallowed disk root) = NotWellFormed
  /\ (forall ev, In ev (trace disk root) ->
      Event_is_schema_stage ev = false /\ Event_is_profile_stage ev = false)
  /\ (forall profile, ValidationProfile_init disk = Ok profile ->
      exists r, outcome disk root = Ok r)
  /\ (forall r, outcome disk root = Ok r ->
      structure_status (struct_details r) = NotWellFormed
      /\ schema_result r = PyNone /\ schema_errors r = []
      /\ mets_results_dict r = PyDict []
      /\ prof_results r = PyDict [] /\ prof_results_dict r = PyDict []
      /\ (exists profile,
            ValidationProfile_init disk = Ok profile
            /\ schematron_result r = is_valid profile)
      /\ (forall extension xml json hardcopy log report,
            fst (process_entity disk root extension xml json hardcopy log)
            = Ok report ->
            dict_get "mets" report = Some (PyDict [])
            /\ dict_get "profile" report = Some (PyDict []))).
Proof.
  intros Hmissing.
  pose proof (check_structure_missing_metadata disk root Hmissing) as Hstatus.
  split; [assumption | ].
  pose proof (structure_check_is_the_checker disk root) as Hcheck.
  unfold validate_package_structure_dict_spec in Hcheck.
  destruct (validate_cases disk root)
    as [(e & Hs & Ho & Ht)
       | [(sdict & details & e & Hs & Hp & Ho & Ht)
         | (sdict & details & profile & out & evs & Hs & Hp & Hst & Ho & Ht)]];
    rewrite Hcheck in Hs; try discriminate; injection Hs as <- <-.
  - rewrite Ho, Ht. split; [ | split ].
    + intros ev [<- | [<- | []]]; split; reflexivity.
    + intros profile Hp'. congruence.
    + intros r Hr. discriminate.
  - destruct (schema_stage_skipped disk _ _ _ _ Hst) as [-> ->];
      [ rewrite Hstatus; discriminate | ].
    rewrite Ho, Ht. split; [ | split ].
    + intros ev [<- | [<- | []]]; split; reflexivity.
    + intros _ _. eauto.
    + intros r Hr. injection Hr as <-. simpl.
      repeat (split; [ first [ assumption | reflexivity ] | ]).
      split; [ now exists profile | ].
      intros extension xml json hardcopy log report Hreport.
      destruct (process_entity_report _ _ _ _ _ _ _ _ Hreport)
        as (r' & filesize & sha1_hash & Hr' & ->).
      rewrite Ho in Hr'. injection Hr' as <-.
      split; reflexivity.
Qed.

End MissingMetadata.

(** ** The theorems on the sample packages *)

Module SampleRuns.

Import StructureChecker Scripted Samples.

Lemma checker_is_the_checker (script : Script) (disk0 : FileSystem) (root : string) :
  @validate_package_structure_dict _ (collaborators checker script) disk0 root
  = validate_package_structure_dict_spec nothing_disallowed disk0 root.
Proof. reflexivity. Defined.

(** The package [/data/ip1] is well formed and its schema stage runs; for
    [/data/ip2], without [METS.xml], no call of the schema stage is made. *)
Lemma schema_stage_only_when_WellFormed_sample :
  (exists sdict details,
     @validate_package_structure_dict _ passing disk "/data/ip1" = Ok (sdict, details)
     /\ structure_status details = WellFormed)
  /\ ((forall ev, In ev (@trace _ passing disk "/data/ip2") ->
       Event_is_schema_stage ev = false)
      /\ (forall r, @outcome _ passing disk "/data/ip2" = Ok r ->
          schema_result r = PyNone)).
Proof.
  split.
  - apply (proj1 (@schema_stage_only_when_WellFormed _ passing disk "/data/ip1")).
    left. exists (NewMetsValidator "/data/ip1").
    split; [ right; right; left; reflexivity | reflexivity ].
  - eapply (proj2 (@schema_stage_only_when_WellFormed _ passing disk "/data/ip2")).
    + reflexivity.
    + left. reflexivity.
Defined.

(** On [/data/ip1] the profile stage runs below a [validate_mets] that
    answered [True]; with a schema failure no call of it is made. *)
Lemma profile_stage_only_when_schema_valid_sample :
  (exists sdict details validator validator',
     @validate_package_structure_dict _ passing disk "/data/ip1" = Ok (sdict, details)
     /\ structure_status details = WellFormed
     /\ @MetsValidator_init _ passing disk (path details) = Ok validator
     /\ @validate_mets _ passing disk validator
          (os_path_join (path details) "METS.xml") = Ok (PyBool true, validator'))
  /\ (exists r,
        @outcome _ failing_schema disk "/data/ip1" = Ok r
        /\ schema_result r = PyBool false
        /\ (forall ev, In ev (@trace _ failing_schema disk "/data/ip1") ->
            Event_is_profile_stage ev = false)
        /\ prof_results r = PyDict []
        /\ prof_results_dict r = PyDict []).
Proof.
  split.
  - apply (proj1 (@profile_stage_only_when_schema_valid _ passing disk "/data/ip1")).
    exists CallProfileResults.
    split; [ do 6 right; left; reflexivity | reflexivity ].
  - eexists. split; [ reflexivity | ]. split; [ reflexivity | ].
    apply (proj2 (@profile_stage_only_when_schema_valid _ failing_schema disk
                    "/data/ip1")).
    + reflexivity.
    + discriminate.
Defined.

(** The package [/data/ip2] has no [METS.xml]. *)
Lemma missing_metadata_file_not_well_formed_sample :
  has_metadata_file disk "/data/ip2" = false
  /\ structure_status (check_structure nothing_disallowed disk "/data/ip2")
     = NotWellFormed
  /\ (exists r,
        @outcome _ passing disk "/data/ip2" = Ok r
        /\ schema_result r = PyNone
        /\ schematron_result r = false).
Proof.
  split; [ reflexivity | ].
  destruct (@missing_metadata_file_not_well_formed nothing_disallowed passing
              (checker_is_the_checker all_pass) disk "/data/ip2" eq_refl)
    as (Hstatus & _ & Hreturns & Hfields).
  split; [ exact Hstatus | ].
  destruct (Hreturns false eq_refl) as [r Hr].
  exists r. split; [ exact Hr | ].
  destruct (Hfields r Hr) as (_ & Hnone & _ & _ & _ & _ & Hflag & _).
  split; [ exact Hnone | ].
  destruct Hflag as (profile & Hinit & ->).
  injection Hinit as <-. reflexivity.
Defined.

(** C3, counterexample. The package [/data/ip2] has no [METS.xml]; its
    report holds a validity flag for the profile, dictionaries for the
    profile results, and the keys [mets] and [profile]. *)
Lemma missing_metadata_report_holds_profile_fields :
  has_metadata_file disk "/data/ip2" = false
  /\ exists r report,
       @outcome _ passing disk "/data/ip2" = Ok r
       /\ fst (@process_entity _ passing disk "/data/ip2" "directory"
                 false true false []) = Ok report
       /\ schematron_result r = false
       /\ prof_results r = PyDict [] /\ prof_results r <> PyNone
       /\ prof_results_dict r = PyDict [] /\ prof_results_dict r <> PyNone
       /\ schema_errors r = []
       /\ dict_get "profile" report <> None
       /\ dict_get "mets" report <> None.
Proof.
  split; [ reflexivity | ].
  eexists _, _. split; [ reflexivity | ]. split; [ reflexivity | ].
  repeat split; discriminate.
Qed.

(** C4, counterexample. The package [/data/ip2] is not well formed and the
    rule sets cannot be loaded: [validate] raises, there is no report. *)
Lemma validate_raises_for_non_conformant_package :
  structure_status (check_structure nothing_disallowed disk "/data/ip2")
  = NotWellFormed
  /\ @outcome _ no_rules disk "/data/ip2"
     = Raise (mkPyExc "OSError" "rule set not found")
  /\ ~ (exists r, @outcome _ no_rules disk "/data/ip2" = Ok r).
Proof.
  split; [ reflexivity | ]. split; [ reflexivity | ].
  intros [r Hr]. discriminate Hr.
Qed.

(** Both a package that fails the structure check and one that fails the
    schema validation get their report. *)
Lemma validate_returns_report_sample :
  (exists r, forall log,
     @validate _ passing disk "/data/ip2" log
     = (Ok r, log ++ @trace _ passing disk "/data/ip2"))
  /\ (exists r, forall log,
        @validate _ failing_schema disk "/data/ip1" log
        = (Ok r, log ++ @trace _ failing_schema disk "/data/ip1")).
Proof.
  split.
  - apply (proj1 (@validate_returns_report _ passing disk "/data/ip2")).
    eexists _, _, false. split; [ reflexivity | ]. split; [ reflexivity | ].
    simpl. discriminate.
  - apply (proj1 (@validate_returns_report _ failing_schema disk "/data/ip1")).
    eexists _, _, false. split; [ reflexivity | ]. split; [ reflexivity | ].
    intros _. exists [], (PyBool false), [sample_error], (PyDict [("valid", PyBool false)]).
    repeat (split; [ reflexivity | ]). discriminate.
Defined.

(** C5, counterexample. The package [/data/ip2] fails the structure gate;
    in the report of the run the fields of the skipped stages are not
    absent: the keys [mets] and [profile] are bound, to empty dictionaries,
    and the tuple of [validate] holds empty dictionaries, an empty list and
    the flag [False] for them. *)
Lemma skipped_stage_fields_not_absent :
  exists r report,
    @outcome _ passing disk "/data/ip2" = Ok r
    /\ structure_status (struct_details r) = NotWellFormed
    /\ fst (@process_entity _ passing disk "/data/ip2" "directory" false true false [])
       = Ok report
    /\ dict_get "mets" report <> None
    /\ dict_get "profile" report <> None
    /\ dict_get "mets" report = Some (PyDict [])
    /\ dict_get "profile" report = Some (PyDict [])
    /\ mets_results_dict r = PyDict []
    /\ prof_results r = PyDict []
    /\ prof_results_dict r = PyDict []
    /\ schema_errors r = []
    /\ schematron_result r = false.
Proof.
  eexists _, _. split; [ reflexivity | ]. split; [ reflexivity | ].
  split; [ reflexivity | ].
  repeat split; discriminate.
Qed.

(** The amended C5 on that run. *)
Lemma skipped_stage_fields_are_initial_values_sample :
  exists r report,
    @outcome _ passing disk "/data/ip2" = Ok r
    /\ fst (@process_entity _ passing disk "/data/ip2" "directory" false true false [])
       = Ok report
    /\ schema_result r = PyNone /\ schema_errors r = []
    /\ mets_results_dict r = PyDict []
    /\ prof_results r = PyDict [] /\ prof_results_dict r = PyDict []
    /\ dict_get "mets" report = Some (PyDict [])
    /\ dict_get "profile" report = Some (PyDict []).
Proof.
  eexists _, _. split; [ reflexivity | ]. split; [ reflexivity | ].
  apply (proj1 (@skipped_stage_fields_are_initial_values _ passing disk
                  "/data/ip2" "directory" false true false [] _ _
                  eq_refl eq_refl)).
  discriminate.
Defined.

(** Two reports, one of a run that evaluated the rules and one of a run
    that stopped at the structure gate, carry the same catalogue. *)
Lemma prof_names_is_the_catalogue_sample :
  exists r1 r2,
    @outcome _ passing disk "/data/ip1" = Ok r1
    /\ @outcome _ passing disk "/data/ip2" = Ok r2
    /\ prof_names r1 = sample_names
    /\ prof_names r2 = prof_names r1.
Proof.
  eexists _, _. split; [ reflexivity | ]. split; [ reflexivity | ].
  apply (@prof_names_is_the_catalogue _ passing disk disk "/data/ip1" "/data/ip2");
    reflexivity.
Defined.





(** [validate_mets] answers [1]: truthy, not [True]; the rules are not
    evaluated. *)
Lemma profile_stage_iff_is_True_sample :
  truthy (PyInt 1) = true
  /\ (In (CallProfileValidate "/data/ip1/METS.xml")
         (@trace _ answering_one disk "/data/ip1")
      <-> PyInt 1 = PyBool true)
  /\ (forall ev, In ev (@trace _ answering_one disk "/data/ip1") ->
      Event_is_profile_stage ev = false).
Proof.
  split; [ reflexivity | ].
  destruct (@profile_stage_iff_is_True _ answering_one disk "/data/ip1"
              (details_to_dict (check_structure nothing_disallowed disk "/data/ip1"))
              (check_structure nothing_disallowed disk "/data/ip1")
              false [] [] (PyInt 1) (PyDict [("valid", PyBool true)])
              eq_refl eq_refl eq_refl eq_refl eq_refl eq_refl)
    as [Hiff Hskip].
  split; [ exact Hiff | ].
  apply Hskip; [ reflexivity | discriminate ].
Defined.

(** The run on [/data/ip2] never evaluates the rules, its flag is the
    [is_valid] of the new profile object. *)
Lemma schematron_result_default_when_not_run_sample :
  exists r profile rest,
    @outcome _ passing disk "/data/ip2" = Ok r
    /\ @ValidationProfile_init _ passing disk = Ok profile
    /\ @trace _ passing disk "/data/ip2"
       = CallStructure "/data/ip2" :: NewValidationProfile :: rest
    /\ schematron_result r = @is_valid _ passing profile.
Proof.
  destruct (@schematron_result_default_when_not_run _ passing disk "/data/ip2"
              _ eq_refl)
    as (profile & rest & Hinit & Htrace & _ & Hflag).
  eexists _, profile, rest. split; [ reflexivity | ].
  split; [ exact Hinit | ]. split; [ exact Htrace | ].
  apply Hflag. left. discriminate.
Defined.

End SampleRuns.

(** * More on the runs of [validate] *)

Section ValidateRuns.

Context {FS : Type} {C : Collaborators FS}.
Variable fs : FS.
Variable to_validate : string.

(** The log of a run is an initial part of the full sequence of calls. *)
Lemma trace_prefix :
  exists root rest,
    call_sequence to_validate root = trace fs to_validate ++ rest
    /\ (forall sdict details,
          validate_package_structure_dict fs to_validate = Ok (sdict, details) ->
          root = path details).
Proof.
  destruct (validate_cases fs to_validate)
    as [(e & Hs & Ho & Ht)
       | [(sdict & details & e & Hs & Hp & Ho & Ht)
         | (sdict & details & profile & out & evs & Hs & Hp & Hst & Ho & Ht)]];
    rewrite Ht.
  - exists "". eexists. split; [ reflexivity | ]. intros; congruence.
  - exists (path details). eexists. split; [ reflexivity | ].
    intros sdict' details' Hs'. congruence.
  - exists (path details).
    assert (Hrest : exists rest,
               [NewMetsValidator (path details);
                CallValidateMets (os_path_join (path details) "METS.xml");
                CallMetsResultsDict;
                CallProfileValidate (os_path_join (path details) "METS.xml");
                CallProfileResults; CallProfileResultsDict] = evs ++ rest).
    { destruct Hst as [ | | | | validator answer validator' results_dict
                                  out0 evs0 Hwf Hi Hv Hd Hprof];
        try (eexists; reflexivity).
      destruct Hprof; eexists; reflexivity. }
    destruct Hrest as [rest Hrest]. exists rest. split.
    + unfold call_sequence. rewrite Hrest. reflexivity.
    + intros sdict' details' Hs'. congruence.
Qed.

(** X1. Every run of [validate] calls its collaborators in one fixed order
    and each at most once: its log is an initial part of the sequence
    structure check, [ValidationProfile()], [MetsValidator(path)],
    [validate_mets], [get_results_dict], [profile.validate], [get_results],
    [get_results_dict], where the METS path of both validations is
    [struct_details.path] joined with [METS.xml], not the path the caller
    passed. *)
Theorem validate_calls_in_order (sdict : PyVal) (details : StructureDetails) :
  validate_package_structure_dict fs to_validate = Ok (sdict, details) ->
  exists rest,
    call_sequence to_validate (path details) = trace fs to_validate ++ rest.
Proof.
  intros Hs. destruct trace_prefix as (root & rest & Hseq & Hroot).
  rewrite (Hroot sdict details Hs) in Hseq. now exists rest.
Qed.

(** X2. An exception of the structure check leaves [validate] at once: the
    same exception is raised, and nothing else was called, not even the
    constructor of the profile. *)
Theorem structure_exception_propagates (e : PyExc) :
  validate_package_structure_dict fs to_validate = Raise e ->
  forall log,
    validate fs to_validate log = (Raise e, log ++ [CallStructure to_validate]).
Proof.
  intros Hs log. rewrite validate_run.
  destruct (validate_cases fs to_validate)
    as [(e' & Hs' & Ho & Ht)
       | [(sdict & details & e' & Hs' & Hp & Ho & Ht)
         | (sdict & details & profile & out & evs & Hs' & Hp & Hst & Ho & Ht)]];
    congruence.
Qed.

(** X3. The profile object is constructed before the status of the
    structure is looked at: when [ValidationProfile()] raises, [validate]
    raises for every package, also for one that is not well formed and
    would never have reached the profile stage. *)
Theorem profile_constructor_failure_aborts_every_run
    (sdict : PyVal) (details : StructureDetails) (e : PyExc) :
  validate_package_structure_dict fs to_validate = Ok (sdict, details) ->
  ValidationProfile_init fs = Raise e ->
  forall log,
    validate fs to_validate log
    = (Raise e, log ++ [CallStructure to_validate; NewValidationProfile]).
Proof.
  intros Hs Hp log. rewrite validate_run.
  destruct (validate_cases fs to_validate)
    as [(e' & Hs' & Ho & Ht)
       | [(sdict' & details' & e' & Hs' & Hp' & Ho & Ht)
         | (sdict' & details' & profile & out & evs & Hs' & Hp' & Hst & Ho & Ht)]];
    congruence.
Qed.

(** The outcome of a run whose structure check and profile constructor
    returned, from the run of the guarded blocks. *)
Lemma outcome_of_stages (sdict : PyVal) (details : StructureDetails)
    (profile : ProfObj) :
  validate_package_structure_dict fs to_validate = Ok (sdict, details) ->
  ValidationProfile_init fs = Ok profile ->
  exists out evs,
    SchemaStageRun fs details (initial_locals profile) out evs
    /\ outcome fs to_validate
       = match out with
         | Ok st => Ok (report_of sdict details st)
         | Raise e => Raise e
         end
    /\ trace fs to_validate
       = CallStructure to_validate :: NewValidationProfile :: evs.
Proof.
  intros Hs Hp.
  destruct (validate_cases fs to_validate)
    as [(e' & Hs' & Ho & Ht)
       | [(sdict' & details' & e' & Hs' & Hp' & Ho & Ht)
         | (sdict' & details' & profile' & out & evs & Hs' & Hp' & Hst & Ho & Ht)]];
    try congruence.
  rewrite Hs in Hs'. injection Hs' as <- <-.
  rewrite Hp in Hp'. injection Hp' as <-.
  now exists out, evs.
Qed.

(** The runs of the schema stage are determined by what the calls return. *)
Lemma schema_stage_answer (details : StructureDetails) (st : Locals)
    (out : result Locals) (evs : Log)
    (validator validator' : MetsObj) (answer results_dict : PyVal) :
  SchemaStageRun fs details st out evs ->
  structure_status details = WellFormed ->
  MetsValidator_init fs (path details) = Ok validator ->
  validate_mets fs validator (os_path_join (path details) "METS.xml")
    = Ok (answer, validator') ->
  mets_get_results_dict validator' = Ok results_dict ->
  exists evs',
    ProfileStageRun fs (os_path_join (path details) "METS.xml")
      (mkLocals answer (l_prof_results st) (l_prof_results_dict st)
         results_dict (validation_errors validator') (l_profile st))
      out evs'
    /\ evs = [NewMetsValidator (path details);
              CallValidateMets (os_path_join (path details) "METS.xml");
              CallMetsResultsDict] ++ evs'.
Proof.
  intros Hrun Hwf Hi Hv Hd.
  destruct Hrun as [Hne | e' _ Hi' | validator0 e' _ Hi' Hv'
                    | validator0 answer0 validator0' e' _ Hi' Hv' Hd'
                    | validator0 answer0 validator0' results_dict0 out0 evs0
                        _ Hi' Hv' Hd' Hprof];
    try contradiction; try congruence;
    rewrite Hi in Hi'; injection Hi' as <-; try congruence;
    rewrite Hv in Hv'; injection Hv' as <- <-; try congruence.
  rewrite Hd in Hd'. injection Hd' as <-.
  now exists evs0.
Qed.

(** X4. A schema validation that ran and did not answer [True] still gives
    a full report: it carries the answer, the validator's errors and its
    results dictionary; the profile fields are empty and the flag is the
    [is_valid] of the fresh profile object. *)
Theorem schema_failure_report
    (sdict : PyVal) (details : StructureDetails) (profile : ProfObj)
    (validator validator' : MetsObj) (answer results_dict : PyVal) :
  validate_package_structure_dict fs to_validate = Ok (sdict, details) ->
  ValidationProfile_init fs = Ok profile ->
  structure_status details = WellFormed ->
  MetsValidator_init fs (path details) = Ok validator ->
  validate_mets fs validator (os_path_join (path details) "METS.xml")
    = Ok (answer, validator') ->
  mets_get_results_dict validator' = Ok results_dict ->
  answer <> PyBool true ->
  outcome fs to_validate
  = Ok (mkValidateResult sdict (PyDict []) results_dict details answer
          (validation_errors validator') NAMES (is_valid profile) (PyDict [])).
Proof.
  intros Hs Hp Hwf Hi Hv Hd Hans.
  destruct (outcome_of_stages sdict details profile Hs Hp)
    as (out & evs & Hst & Ho & _).
  destruct (schema_stage_answer _ _ _ _ _ _ _ _ Hst Hwf Hi Hv Hd)
    as (evs' & Hprof & _).
  rewrite Ho.
  destruct Hprof as [Hne | e Htrue | profile' e Htrue | profile' results e Htrue
                     | profile' results prof_dict Htrue];
    simpl in *; try contradiction.
  reflexivity.
Qed.

(** X5. When every stage runs, the report is read off the objects after
    their calls: the flag is the [is_valid] of the profile as
    [profile.validate] left it, not the one of the fresh object, and the
    profile results are those of that evaluated profile. *)
Theorem full_run_report
    (sdict : PyVal) (details : StructureDetails) (profile profile' : ProfObj)
    (validator validator' : MetsObj) (results_dict results prof_dict : PyVal) :
  validate_package_structure_dict fs to_validate = Ok (sdict, details) ->
  ValidationProfile_init fs = Ok profile ->
  structure_status details = WellFormed ->
  MetsValidator_init fs (path details) = Ok validator ->
  validate_mets fs validator (os_path_join (path details) "METS.xml")
    = Ok (PyBool true, validator') ->
  mets_get_results_dict validator' = Ok results_dict ->
  profile_validate fs profile (os_path_join (path details) "METS.xml")
    = Ok profile' ->
  profile_get_results profile' = Ok results ->
  profile_get_results_dict profile' = Ok prof_dict ->
  outcome fs to_validate
  = Ok (mkValidateResult sdict prof_dict results_dict details (PyBool true)
          (validation_errors validator') NAMES (is_valid profile') results)
  /\ trace fs to_validate = call_sequence to_validate (path details).
Proof.
  intros Hs Hp Hwf Hi Hv Hd Hpv Hr Hrd.
  destruct (outcome_of_stages sdict details profile Hs Hp)
    as (out & evs & Hst & Ho & Ht).
  destruct (schema_stage_answer _ _ _ _ _ _ _ _ Hst Hwf Hi Hv Hd)
    as (evs' & Hprof & ->).
  rewrite Ho, Ht.
  destruct Hprof as [Hne | e Htrue Hpv' | profile0 e Htrue Hpv' Hr'
                     | profile0 results0 e Htrue Hpv' Hr' Hrd'
                     | profile0 results0 prof_dict0 Htrue Hpv' Hr' Hrd'];
    simpl in *; try congruence;
    rewrite Hpv in Hpv'; injection Hpv' as <-; try congruence;
    rewrite Hr in Hr'; injection Hr' as <-; try congruence.
  rewrite Hrd in Hrd'. injection Hrd' as <-.
  split; reflexivity.
Qed.

End ValidateRuns.

(** * The runs of [process_entity] and of the writers *)

Section ProcessEntityRuns.

Context {FS : Type} {C : Collaborators FS}.

Lemma write_data_to_file_json_dict (entries : list (string * PyVal))
    (file_path : string) (log : Log) :
  write_data_to_file_json (PyDict entries) file_path log
  = (Ok tt, log ++ [OpenFile file_path; WriteFile "json" file_path (PyDict entries)]).
Proof.
  unfold write_data_to_file_json, bind, emit. now rewrite <- app_assoc.
Qed.

Lemma write_data_to_file_xml_run (data : PyVal) (file_path : string) (log : Log) :
  write_data_to_file_xml data file_path log
  = (Ok tt, log ++ [OpenFile file_path; WriteFile "xml" file_path data]).
Proof.
  unfold write_data_to_file_xml, bind, emit. now rewrite <- app_assoc.
Qed.

(** For a dictionary, [hardcopy_file] ends normally and logs
    [hardcopy_events]. *)
Lemma hardcopy_file_dict (filename extension sha1_hash : string)
    (entries : list (string * PyVal)) (verbose : bool) (format : string)
    (log : Log) :
  hardcopy_file filename extension sha1_hash (PyDict entries) verbose format log
  = (Ok tt,
     log ++ hardcopy_events filename extension sha1_hash (PyDict entries)
              verbose format).
Proof.
  unfold hardcopy_file, hardcopy_events, bind.
  destruct verbose; unfold emit, ret; cbn [fst snd];
    destruct (format =? "json")%string;
    rewrite ?write_data_to_file_json_dict, ?write_data_to_file_xml_run;
    repeat rewrite <- app_assoc; reflexivity.
Qed.

(** The run of [process_entity], call by call. *)
Lemma process_entity_run (fs : FS) (entity extension : string)
    (xml json hardcopy : bool) (log : Log) :
  process_entity fs entity extension xml json hardcopy log
  = match os_path_getsize fs entity with
    | Raise e => (Raise e, log ++ [CallGetSize entity])
    | Ok filesize =>
        match (if (extension =? "directory")%string
               then sha1_directory fs entity else sha1 fs entity) with
        | Raise e =>
            (Raise e, log ++ [CallGetSize entity; hash_event extension entity])
        | Ok sha1_hash =>
            match outcome fs entity with
            | Raise e =>
                (Raise e,
                 log ++ [CallGetSize entity; hash_event extension entity]
                     ++ trace fs entity)
            | Ok r =>
                let report :=
                  validation_result_of (os_path_basename entity)
                    (os_path_dirname entity) filesize sha1_hash r in
                (Ok report,
                 log ++ [CallGetSize entity; hash_event extension entity]
                     ++ trace fs entity
                     ++ output_events (os_path_basename entity) extension
                          sha1_hash report xml json hardcopy)
            end
        end
    end.
Proof.
  unfold process_entity, hash_event, bind at 1 2 3, call at 1.
  destruct (os_path_getsize fs entity) as [filesize | e]; [ | reflexivity ].
  destruct (extension =? "directory")%string; unfold call at 1;
    [ destruct (sha1_directory fs entity) as [sha1_hash | e]
    | destruct (sha1 fs entity) as [sha1_hash | e] ];
    try (rewrite <- app_assoc; reflexivity);
    unfold bind at 1; rewrite validate_run;
    (destruct (outcome fs entity) as [r | e];
     [ | repeat rewrite <- app_assoc; reflexivity ]);
    cbn [dict_set assoc_set String.eqb Ascii.eqb Bool.eqb];
    unfold validation_result_of, output_events, bind, emit, ret;
    destruct xml, json, hardcopy; cbn [fst snd];
    rewrite ?hardcopy_file_dict;
    repeat rewrite <- app_assoc; rewrite ?app_nil_r; cbn [app]; reflexivity.
Qed.

(** [validate] logs calls of its collaborators only. *)
Lemma trace_no_output (fs : FS) (to_validate : string) (ev : Event) :
  In ev (trace fs to_validate) -> Event_is_output ev = false.
Proof.
  intros Hin.
  destruct (trace_prefix fs to_validate) as (root & rest & Hseq & _).
  assert (Hall : In ev (call_sequence to_validate root))
    by (rewrite Hseq; apply in_or_app; now left).
  unfold call_sequence in Hall. simpl in Hall.
  repeat (destruct Hall as [<- | Hall]; [ reflexivity | ]). destruct Hall.
Qed.

Lemma hash_event_no_output (extension entity : string) :
  Event_is_output (hash_event extension entity) = false.
Proof. unfold hash_event. now destruct (extension =? "directory")%string. Qed.

(** In a run that ends normally, the output events are those of lines
    71-80, for the report and the hash of the run. *)
Lemma process_entity_outputs (fs : FS) (entity extension : string)
    (xml json hardcopy : bool) (report : PyVal) :
  fst (process_entity fs entity extension xml json hardcopy []) = Ok report ->
  exists sha1_hash,
    (if (extension =? "directory")%string
     then sha1_directory fs entity else sha1 fs entity) = Ok sha1_hash
    /\ forall ev,
         Event_is_output ev = true ->
         (In ev (snd (process_entity fs entity extension xml json hardcopy []))
          <-> In ev (output_events (os_path_basename entity) extension sha1_hash
                       report xml json hardcopy)).
Proof.
  rewrite process_entity_run.
  destruct (os_path_getsize fs entity) as [filesize | e]; [ | discriminate ].
  destruct (if (extension =? "directory")%string
            then sha1_directory fs entity else sha1 fs entity)
    as [sha1_hash | e]; [ | discriminate ].
  destruct (outcome fs entity) as [r | e]; [ | discriminate ].
  cbn [fst snd app]. intros Hreport. injection Hreport as <-.
  exists sha1_hash. split; [ reflexivity | ].
  intros ev Hout. split.
  - intros [<- | [<- | Hin]].
    + discriminate.
    + rewrite hash_event_no_output in Hout. discriminate.
    + apply in_app_or in Hin. destruct Hin as [Hin | Hin]; [ | assumption ].
      apply trace_no_output in Hin. congruence.
  - intros Hin. right. right. apply in_or_app. now right.
Qed.

(** X6. [process_entity] always hands a dictionary to the writers, so the
    [ValueError] of [write_data_to_file_json] is never raised from it: the
    run ends normally exactly when [os.path.getsize], the hash function and
    [validate] return, whatever the output flags. *)
Theorem process_entity_returns_iff (fs : FS) (entity extension : string)
    (xml json hardcopy : bool) (log : Log) :
  (exists report, fst (process_entity fs entity extension xml json hardcopy log)
                  = Ok report)
  <-> (exists filesize, os_path_getsize fs entity = Ok filesize)
      /\ (exists sha1_hash,
            (if (extension =? "directory")%string
             then sha1_directory fs entity else sha1 fs entity) = Ok sha1_hash)
      /\ (exists r, outcome fs entity = Ok r).
Proof.
  rewrite process_entity_run.
  destruct (os_path_getsize fs entity) as [filesize | e];
    [ | split; [ intros [? H]; discriminate
               | intros ([? H] & _); discriminate ] ].
  destruct (if (extension =? "directory")%string
            then sha1_directory fs entity else sha1 fs entity)
    as [sha1_hash | e];
    [ | split; [ intros [? H]; discriminate
               | intros (_ & [? H] & _); discriminate ] ].
  destruct (outcome fs entity) as [r | e]; cbn [fst].
  - split; [ intros _; repeat split; eexists; reflexivity
           | intros _; eexists; reflexivity ].
  - split; [ intros [? H]; discriminate | intros (_ & _ & [? H]); discriminate ].
Qed.

(** X7. The two metadata calls come first: when [os.path.getsize] raises,
    or the hash function after it, [process_entity] raises the same
    exception and the package is never validated. *)
Theorem metadata_failure_skips_validation (fs : FS) (entity extension : string)
    (xml json hardcopy : bool) (log : Log) (e : PyExc) :
  os_path_getsize fs entity = Raise e
  \/ ((exists filesize, os_path_getsize fs entity = Ok filesize)
      /\ (if (extension =? "directory")%string
          then sha1_directory fs entity else sha1 fs entity) = Raise e) ->
  fst (process_entity fs entity extension xml json hardcopy log) = Raise e
  /\ forall ev,
       In ev (snd (process_entity fs entity extension xml json hardcopy [])) ->
       Event_is_structure_call ev = false.
Proof.
  rewrite !process_entity_run.
  intros [Hsize | ([filesize Hsize] & Hhash)]; rewrite Hsize; cbn [fst snd app].
  - split; [ reflexivity | ]. intros ev [<- | []]. reflexivity.
  - rewrite Hhash. cbn [fst snd]. split; [ reflexivity | ].
    intros ev [<- | [<- | []]]; [ reflexivity | ].
    unfold hash_event. now destruct (extension =? "directory")%string.
Qed.

(** X8. What a run that ends normally prints: the report is echoed exactly
    when [xml] or [json] is set, as XML whenever [xml] is set (the [json]
    flag is then ignored) and as JSON otherwise; the two progress lines are
    printed exactly when [hardcopy] is the only flag set. *)
Theorem console_output (fs : FS) (entity extension : string)
    (xml json hardcopy : bool) (report : PyVal) :
  fst (process_entity fs entity extension xml json hardcopy []) = Ok report ->
  let log := snd (process_entity fs entity extension xml json hardcopy []) in
  (In (Echo (if xml then "xml" else "json") report) log <-> xml || json = true)
  /\ (forall format data,
        In (Echo format data) log ->
        format = (if xml then "xml" else "json") /\ data = report)
  /\ (In (EchoText "Working...") log
      <-> xml = false /\ json = false /\ hardcopy = true).
Proof.
  intros Hreport log. subst log.
  destruct (process_entity_outputs _ _ _ _ _ _ _ Hreport) as (sha1_hash & _ & Hout).
  split; [ | split ].
  - rewrite (Hout (Echo _ _) eq_refl).
    destruct xml, json, hardcopy; simpl; intuition discriminate.
  - intros format data Hin. apply (Hout (Echo _ _) eq_refl) in Hin.
    destruct xml, json, hardcopy; simpl in Hin;
      intuition (try discriminate);
      match goal with H : Echo _ _ = Echo _ _ |- _ => now injection H end.
  - rewrite (Hout (EchoText _) eq_refl).
    destruct xml, json, hardcopy; simpl; intuition discriminate.
Qed.

(** X9. What a run that ends normally writes: a file is written exactly
    when [hardcopy] is set; it holds the report, as XML when [xml] is set
    and as JSON otherwise, and it is [ip_validator.<basename>.<format>] in
    the directory named after the SHA-1 of the package, which is created
    first. *)
Theorem file_output (fs : FS) (entity extension : string)
    (xml json hardcopy : bool) (report : PyVal) :
  fst (process_entity fs entity extension xml json hardcopy []) = Ok report ->
  let log := snd (process_entity fs entity extension xml json hardcopy []) in
  exists sha1_hash,
    (if (extension =? "directory")%string
     then sha1_directory fs entity else sha1 fs entity) = Ok sha1_hash
    /\ (In (MakeDirs sha1_hash) log <-> hardcopy = true)
    /\ (forall format file_path data,
          In (WriteFile format file_path data) log ->
          hardcopy = true
          /\ format = (if xml then "xml" else "json")
          /\ file_path
             = os_path_join sha1_hash
                 ("ip_validator." ++ os_path_basename entity ++ "." ++ format)
          /\ data = report)
    /\ (hardcopy = true ->
        In (WriteFile (if xml then "xml" else "json")
              (os_path_join sha1_hash
                 ("ip_validator." ++ os_path_basename entity ++ "."
                  ++ (if xml then "xml" else "json")))
              report) log).
Proof.
  intros Hreport log. subst log.
  destruct (process_entity_outputs _ _ _ _ _ _ _ Hreport)
    as (sha1_hash & Hhash & Hout).
  exists sha1_hash. split; [ assumption | ]. split; [ | split ].
  - rewrite (Hout (MakeDirs _) eq_refl).
    destruct xml, json, hardcopy; simpl; intuition discriminate.
  - intros format file_path data Hin. apply (Hout (WriteFile _ _ _) eq_refl) in Hin.
    destruct xml, json, hardcopy; simpl in Hin;
      intuition (try discriminate);
      match goal with
      | H : WriteFile _ _ _ = WriteFile _ _ _ |- _ =>
          injection H as <- <- <-; reflexivity
      end.
  - intros ->. rewrite (Hout (WriteFile _ _ _) eq_refl).
    destruct xml, json; simpl; auto 10.
Qed.

End ProcessEntityRuns.

(** * The writers *)

Section Writers.



End Writers.

(** * Paths and extensions *)

Lemma split_at_last_slash_no_slash (s : string) :
  contains "/" s = false -> split_at_last_slash s = None.
Proof.
  induction s as [ | c s IH]; simpl; [ reflexivity | ].
  intros Hno. apply orb_false_iff in Hno. destruct Hno as [Hc Hs].
  rewrite (IH Hs), Hc. reflexivity.
Qed.

Lemma split_at_last_slash_app (s t : string) :
  contains "/" t = false ->
  split_at_last_slash (s ++ t)
  = match split_at_last_slash s with
    | Some (head, tail) => Some (head, (tail ++ t)%string)
    | None => None
    end.
Proof.
  intros Hno. induction s as [ | c s IH]; simpl.
  - now apply split_at_last_slash_no_slash.
  - rewrite IH. destruct (split_at_last_slash s) as [[head tail] | ];
      [ reflexivity | ].
    destruct (Ascii.eqb c "/"); reflexivity.
Qed.

Lemma os_path_basename_app (s t : string) :
  contains "/" t = false ->
  os_path_basename (s ++ t) = (os_path_basename s ++ t)%string.
Proof.
  intros Hno. unfold os_path_basename. rewrite split_at_last_slash_app by assumption.
  destruct (split_at_last_slash s) as [[head tail] | ]; reflexivity.
Qed.

Lemma split_at_last_slash_trailing (d : string) :
  split_at_last_slash (d ++ "/") = Some ((d ++ "/")%string, "").
Proof.
  induction d as [ | c d IH]; simpl; [ reflexivity | ].
  rewrite IH. reflexivity.
Qed.

Lemma split_at_last_dot_no_dot (s : string) :
  contains "." s = false -> split_at_last_dot s = None.
Proof.
  induction s as [ | c s IH]; simpl; [ reflexivity | ].
  intros Hno. apply orb_false_iff in Hno. destruct Hno as [Hc Hs].
  rewrite (IH Hs), Hc. reflexivity.
Qed.

Lemma split_at_last_dot_suffix (stem e : string) :
  contains "." e = false ->
  split_at_last_dot (stem ++ "." ++ e) = Some (stem, ("." ++ e)%string).
Proof.
  intros Hno. induction stem as [ | c stem IH]; simpl.
  - rewrite (split_at_last_dot_no_dot e Hno). reflexivity.
  - simpl in IH. rewrite IH. reflexivity.
Qed.

Lemma split_at_last_dot_leading_dots (dots e : string) :
  all_dots dots = true ->
  contains "." e = false ->
  match split_at_last_dot (dots ++ e) with
  | Some (stem, _) => all_dots stem = true
  | None => True
  end.
Proof.
  intros Hdots Hno. induction dots as [ | c dots IH]; simpl.
  - now rewrite (split_at_last_dot_no_dot e Hno).
  - simpl in Hdots. apply andb_true_iff in Hdots. destruct Hdots as [Hc Hdots].
    specialize (IH Hdots).
    destruct (split_at_last_dot (dots ++ e)) as [[stem ext] | ].
    + simpl. now rewrite Hc.
    + rewrite Hc. reflexivity.
Qed.

(** X12. For an ASCII suffix, the extension [cli] tests is the text after
    the last dot of the last path component, in lower case: for [x.tar.GZ]
    it is [gz], and directories with dots in their names do not count. *)
Theorem extension_is_last_suffix_lowercased (stem e : string) :
  is_ascii e = true ->
  contains "/" e = false ->
  contains "." e = false ->
  all_dots (os_path_basename stem) = false ->
  extension_of (stem ++ "." ++ e) = lower e.
Proof.
  intros _ Hslash Hdot Hstem. unfold extension_of, os_path_splitext_ext.
  rewrite os_path_basename_app by (simpl; exact Hslash).
  rewrite (split_at_last_dot_suffix _ e Hdot), Hstem. reflexivity.
Qed.

(** X13. A file whose name has dots only at its beginning ([.zip],
    [..tar]) has no extension for [cli], whatever stands after the dots. *)
Theorem dot_files_have_no_extension (package dots e : string) :
  os_path_basename package = (dots ++ e)%string ->
  all_dots dots = true ->
  contains "." e = false ->
  extension_of package = "" /\ allowed_extension (extension_of package) = false.
Proof.
  intros Hname Hdots Hno.
  assert (Hext : extension_of package = "").
  { unfold extension_of, os_path_splitext_ext. rewrite Hname.
    pose proof (split_at_last_dot_leading_dots dots e Hdots Hno) as Hsplit.
    destruct (split_at_last_dot (dots ++ e)) as [[stem ext] | ];
      [ rewrite Hsplit | ]; reflexivity. }
  rewrite Hext. split; reflexivity.
Qed.

(** * The runs of [cli] *)

Section CliRuns.

Context {FS : Type} {C : Collaborators FS} {CL : CommandLine FS}.
Variables json xml hardcopy : bool.

Lemma parametric_process_entity (fs : FS) (entity extension : string) :
  parametric (process_entity fs entity extension xml json hardcopy).
Proof.
  intros log.
  rewrite (process_entity_run fs entity extension xml json hardcopy log).
  rewrite (process_entity_run fs entity extension xml json hardcopy []).
  destruct (os_path_getsize fs entity); [ | reflexivity ].
  destruct (if (extension =? "directory")%string
            then sha1_directory fs entity else sha1 fs entity); [ | reflexivity ].
  destruct (outcome fs entity); reflexivity.
Qed.

Lemma parametric_cli_package (fs : FS) (package : string) :
  parametric (cli_package fs json xml hardcopy package).
Proof.
  unfold cli_package.
  destruct (os_path_isfile fs package);
    [ destruct (allowed_extension (extension_of package))
    | destruct (os_path_isdir fs package) ];
    try apply parametric_emit;
    (apply parametric_bind;
     [ apply parametric_process_entity | intros ?; apply parametric_ret ]).
Qed.

(** One turn of the loop: a rejection line, or [process_entity]. *)
Lemma cli_package_run (fs : FS) (package : string) (log : Log) :
  cli_package fs json xml hardcopy package log
  = if eligible fs package then
      match process_entity fs package (extension_for fs package)
              xml json hardcopy log with
      | (Ok _, log') => (Ok tt, log')
      | (Raise e, log') => (Raise e, log')
      end
    else (Ok tt, log ++ [rejection fs package]).
Proof.
  unfold cli_package, eligible, rejection, extension_for, bind, ret, emit.
  destruct (os_path_isfile fs package);
    [ destruct (allowed_extension (extension_of package))
    | destruct (os_path_isdir fs package) ];
    reflexivity.
Qed.

Lemma skipn_length_app (log events : Log) :
  skipn (List.length log) (log ++ events) = events.
Proof.
  rewrite skipn_app, skipn_all, Nat.sub_diag. reflexivity.
Qed.

(** The loop, turn by turn: the events of a turn, then the other packages
    on the file system those events leave. *)
Lemma cli_packages_cons (fs : FS) (package : string) (rest : list string)
    (log : Log) :
  cli_packages fs json xml hardcopy (package :: rest) log
  = match cli_package fs json xml hardcopy package [] with
    | (Ok _, events) =>
        cli_packages (written fs events) json xml hardcopy rest (log ++ events)
    | (Raise e, events) => (Raise e, log ++ events)
    end.
Proof.
  cbn [cli_packages]. rewrite (parametric_cli_package fs package log).
  destruct (cli_package fs json xml hardcopy package []) as [[[] | e] events];
    cbn [fst snd]; [ now rewrite skipn_length_app | reflexivity ].
Qed.

Lemma parametric_cli_packages (packages : list string) :
  forall fs, parametric (cli_packages fs json xml hardcopy packages).
Proof.
  induction packages as [ | package rest IH]; intros fs log.
  - simpl. unfold ret. now rewrite app_nil_r.
  - rewrite (cli_packages_cons fs package rest log).
    rewrite (cli_packages_cons fs package rest []).
    destruct (cli_package fs json xml hardcopy package []) as [[[] | e] events];
      [ | reflexivity ].
    rewrite (IH (written fs events) (log ++ events)).
    rewrite (IH (written fs events) ([] ++ events)).
    cbn [fst snd app]. now rewrite app_assoc.
Qed.

Lemma cli_packages_app (before after : list string) :
  forall fs log,
    cli_packages fs json xml hardcopy (before ++ after) log
    = match cli_packages fs json xml hardcopy before log with
      | (Ok _, log') =>
          cli_packages (file_system_after fs json xml hardcopy before)
            json xml hardcopy after log'
      | (Raise e, log') => (Raise e, log')
      end.
Proof.
  induction before as [ | package rest IH]; intros fs log.
  - reflexivity.
  - cbn [app file_system_after]. rewrite !cli_packages_cons.
    destruct (cli_package fs json xml hardcopy package []) as [[[] | e] events];
      [ apply IH | reflexivity ].
Qed.

Lemma cli_nonempty (fs : FS) (package : string) (rest : list string) (log : Log) :
  cli fs json xml hardcopy (package :: rest) log
  = cli_packages fs json xml hardcopy (package :: rest) log.
Proof. reflexivity. Qed.

Lemma written_rejection (fs : FS) (package : string) :
  written fs [rejection fs package] = fs.
Proof.
  unfold rejection. destruct (os_path_isfile fs package); reflexivity.
Qed.

Lemma allowed_extension_not_directory (extension : string) :
  allowed_extension extension = true -> (extension =? "directory")%string = false.
Proof.
  unfold allowed_extension, ALLOWED_EXTENSIONS. simpl. intros Hin.
  repeat (apply orb_true_iff in Hin; destruct Hin as [Hin | Hin];
          [ apply String.eqb_eq in Hin; subst; reflexivity | ]).
  discriminate.
Qed.

(** [validate] logs one structure check, for the package it is given. *)
Lemma trace_structure_calls (fs : FS) (package : string) :
  filter Event_is_structure_call (trace fs package) = [CallStructure package].
Proof.
  destruct (trace_prefix fs package) as (root & rest & Hseq & _).
  destruct (validate_cases fs package)
    as [(e & _ & _ & Ht)
       | [(sdict & details & e & _ & _ & _ & Ht)
         | (sdict & details & profile & out & evs & _ & _ & _ & _ & Ht)]];
    rewrite Ht in *; try reflexivity.
  unfold call_sequence in Hseq. cbn [app] in Hseq.
  injection Hseq as Hseq.
  assert (Hnone : filter Event_is_structure_call (evs ++ rest) = [])
    by (rewrite <- Hseq; reflexivity).
  rewrite filter_app in Hnone. apply app_eq_nil in Hnone.
  simpl. now rewrite (proj1 Hnone).
Qed.

Lemma output_events_structure_calls (filename extension sha1_hash : string)
    (data : PyVal) (x j h : bool) :
  filter Event_is_structure_call
    (output_events filename extension sha1_hash data x j h) = [].
Proof.
  unfold output_events, hardcopy_events.
  destruct x, j, h; simpl; reflexivity.
Qed.

(** A run of [process_entity] that ends normally has validated its entity
    once. *)
Lemma process_entity_structure_calls (fs : FS) (entity extension : string)
    (x j h : bool) (report : PyVal) :
  fst (process_entity fs entity extension x j h []) = Ok report ->
  filter Event_is_structure_call
    (snd (process_entity fs entity extension x j h []))
  = [CallStructure entity].
Proof.
  rewrite process_entity_run.
  destruct (os_path_getsize fs entity) as [filesize | e]; [ | discriminate ].
  destruct (if (extension =? "directory")%string
            then sha1_directory fs entity else sha1 fs entity)
    as [sha1_hash | e]; [ | discriminate ].
  destruct (outcome fs entity) as [r | e]; [ | discriminate ].
  intros _. cbn [fst snd app filter Event_is_structure_call].
  assert (Hhash : Event_is_structure_call (hash_event extension entity) = false)
    by (unfold hash_event; now destruct (extension =? "directory")%string).
  rewrite Hhash, filter_app, trace_structure_calls,
    output_events_structure_calls.
  reflexivity.
Qed.

(** What a run of [process_entity] logs: the two metadata calls, the calls
    of [validate], and output events. *)
Lemma process_entity_events (fs : FS) (entity extension : string)
    (x j h : bool) (ev : Event) :
  In ev (snd (process_entity fs entity extension x j h [])) ->
  ev = CallGetSize entity
  \/ ev = hash_event extension entity
  \/ In ev (trace fs entity)
  \/ (exists filename sha1_hash data,
        In ev (output_events filename extension sha1_hash data x j h)).
Proof.
  rewrite process_entity_run. intros Hin.
  destruct (os_path_getsize fs entity) as [filesize | e];
    [ | destruct Hin as [<- | []]; auto ].
  destruct (if (extension =? "directory")%string
            then sha1_directory fs entity else sha1 fs entity)
    as [sha1_hash | e];
    [ | destruct Hin as [<- | [<- | []]]; auto ].
  destruct (outcome fs entity) as [r | e]; cbn [snd app] in Hin;
    destruct Hin as [<- | [<- | Hin]]; auto.
  apply in_app_or in Hin. destruct Hin as [Hin | Hin]; auto.
  do 3 right. eauto.
Qed.

Lemma output_events_are_output (filename extension sha1_hash : string)
    (data : PyVal) (x j h : bool) (ev : Event) :
  In ev (output_events filename extension sha1_hash data x j h) ->
  Event_is_output ev = true.
Proof.
  unfold output_events, hardcopy_events.
  destruct x, j, h; simpl; intros Hin;
    repeat (destruct Hin as [<- | Hin]; [ reflexivity | ]); destruct Hin.
Qed.

Lemma output_events_without_hardcopy (filename extension sha1_hash : string)
    (data : PyVal) (x j : bool) (ev : Event) :
  In ev (output_events filename extension sha1_hash data x j false) ->
  Event_is_write ev = false.
Proof.
  unfold output_events.
  destruct x, j; simpl; intros Hin;
    repeat (destruct Hin as [<- | Hin]; [ reflexivity | ]); destruct Hin.
Qed.

Lemma written_without_writes (fs : FS) (events : Log) :
  (forall ev, In ev events -> Event_is_write ev = false) ->
  written fs events = fs.
Proof.
  unfold written. induction events as [ | ev events IH]; intros Hnone;
    [ reflexivity | ].
  cbn [fold_left].
  assert (Hev : fs_after fs ev = fs).
  { pose proof (Hnone ev (or_introl eq_refl)) as Hw.
    destruct ev; try reflexivity; discriminate Hw. }
  rewrite Hev. apply IH. intros ev' Hin. apply Hnone. now right.
Qed.

Lemma write_is_output (ev : Event) :
  Event_is_output ev = false -> Event_is_write ev = false.
Proof. destruct ev; simpl; congruence. Qed.

End CliRuns.

(** ** What [cli] processes *)

Section CliProperties.

Context {FS : Type} {C : Collaborators FS} {CL : CommandLine FS}.

(** Without [hardcopy] a turn of the loop writes nothing. *)
Lemma turn_without_hardcopy (fs : FS) (json xml : bool) (package : string) :
  written fs (snd (cli_package fs json xml false package [])) = fs.
Proof.
  apply written_without_writes. intros ev Hin.
  rewrite cli_package_run in Hin.
  destruct (eligible fs package).
  - assert (Hpe : In ev (snd (process_entity fs package
                                (extension_for fs package) xml json false [])))
      by (destruct (process_entity fs package (extension_for fs package)
                      xml json false []) as [[report | e] log']; exact Hin).
    apply process_entity_events in Hpe.
    destruct Hpe as [-> | [-> | [Htrace | (filename & sha1_hash & data & Hout)]]].
    + reflexivity.
    + unfold hash_event.
      now destruct (extension_for fs package =? "directory")%string.
    + apply write_is_output. now apply trace_no_output in Htrace.
    + now apply output_events_without_hardcopy in Hout.
  - destruct Hin as [<- | []]. unfold rejection.
    now destruct (os_path_isfile fs package).
Qed.

(** X14. [cli] validates nothing for packages it rejects and goes on to
    the next one: when no package is a directory or a file with an allowed
    extension, the run ends normally and its whole log is one line per
    package, in order, "has an invalid extension" for a file and "is not a
    valid file or folder" otherwise; without packages it is the help
    text. *)
Theorem cli_rejects_without_validating
    (fs : FS) (json xml hardcopy : bool) (packages : list string) (log : Log) :
  (forall package, In package packages -> eligible fs package = false) ->
  cli fs json xml hardcopy packages log
  = (Ok tt,
     log ++ match packages with
            | [] => [EchoText get_help]
            | _ :: _ => map (rejection fs) packages
            end).
Proof.
  intros Hnone.
  assert (Hloop : forall log',
             cli_packages fs json xml hardcopy packages log'
             = (Ok tt, log' ++ map (rejection fs) packages)).
  { induction packages as [ | package rest IH]; intros log'.
    - simpl. unfold ret. now rewrite app_nil_r.
    - rewrite cli_packages_cons, cli_package_run.
      rewrite (Hnone package (or_introl eq_refl)). cbn [app].
      rewrite written_rejection.
      rewrite IH by (intros p Hp; apply Hnone; now right).
      simpl. now rewrite <- app_assoc. }
  destruct packages as [ | package rest]; [ reflexivity | ].
  rewrite cli_nonempty. apply Hloop.
Qed.

(** X15. Without [hardcopy] nothing is written while [cli] runs, and when
    every run of [process_entity] ends normally, [cli] ends normally and
    has validated exactly the eligible packages (the directories, and the
    files with an allowed extension), each once and in the order of the
    command line. *)
Theorem cli_validates_eligible_in_order
    (fs : FS) (json xml : bool) (packages : list string) :
  (forall package,
     In package packages -> eligible fs package = true ->
     exists report,
       fst (process_entity fs package (extension_for fs package)
              xml json false []) = Ok report) ->
  fst (cli fs json xml false packages []) = Ok tt
  /\ filter Event_is_structure_call (snd (cli fs json xml false packages []))
     = map CallStructure (filter (eligible fs) packages).
Proof.
  intros Hreturn.
  assert (Hloop : fst (cli_packages fs json xml false packages []) = Ok tt
                  /\ filter Event_is_structure_call
                       (snd (cli_packages fs json xml false packages []))
                     = map CallStructure (filter (eligible fs) packages)).
  { induction packages as [ | package rest IH]; [ split; reflexivity | ].
    destruct IH as [IHok IHlog]; [ intros p Hp; apply Hreturn; now right | ].
    rewrite cli_packages_cons.
    pose proof (turn_without_hardcopy fs json xml package) as Hsame.
    rewrite cli_package_run in *. cbn [filter].
    destruct (eligible fs package) eqn:Helig.
    - destruct (Hreturn package (or_introl eq_refl) Helig) as [report Hreport].
      pose proof (process_entity_structure_calls _ _ _ _ _ _ _ Hreport) as Hcalls.
      destruct (process_entity fs package (extension_for fs package)
                  xml json false []) as [[report' | e] log'];
        [ | discriminate ].
      cbn [fst snd] in Hcalls, Hsame. rewrite Hsame.
      rewrite parametric_cli_packages. cbn [fst snd app].
      split; [ assumption | ].
      rewrite filter_app, Hcalls, IHlog. reflexivity.
    - cbn [snd app] in Hsame |- *. rewrite Hsame.
      rewrite parametric_cli_packages. cbn [fst snd app filter].
      split; [ assumption | ].
      assert (Hrej : Event_is_structure_call (rejection fs package) = false)
        by (unfold rejection; now destruct (os_path_isfile fs package)).
      now rewrite Hrej. }
  destruct packages as [ | package rest]; [ split; reflexivity | ].
  rewrite cli_nonempty. exact Hloop.
Qed.

(** X16. [cli] has no handler around [process_entity]: as soon as one
    package raises, the run raises that exception and the packages after it
    on the command line are neither validated nor reported. *)
Theorem cli_stops_at_first_exception
    (fs : FS) (json xml hardcopy : bool)
    (before after : list string) (package : string) (e : PyExc)
    (log log1 log2 : Log) :
  cli_packages fs json xml hardcopy before log = (Ok tt, log1) ->
  cli_package (file_system_after fs json xml hardcopy before)
    json xml hardcopy package log1 = (Raise e, log2) ->
  cli fs json xml hardcopy (before ++ package :: after) log = (Raise e, log2).
Proof.
  intros Hbefore Hpackage.
  assert (Hloop : cli_packages fs json xml hardcopy (before ++ package :: after) log
                  = (Raise e, log2)).
  { rewrite cli_packages_app, Hbefore, cli_packages_cons.
    rewrite parametric_cli_package in Hpackage.
    destruct (cli_package (file_system_after fs json xml hardcopy before)
                json xml hardcopy package []) as [[[] | e'] events];
      cbn [fst snd] in Hpackage; [ discriminate | exact Hpackage ]. }
  destruct before; [ rewrite <- Hloop; reflexivity | ].
  cbn [app] in *. rewrite cli_nonempty. exact Hloop.
Qed.

(** The hash calls of [process_entity] are for its entity, by extension. *)
Lemma process_entity_hash_calls (fs : FS) (entity extension : string)
    (x j h : bool) (ev : Event) :
  In ev (snd (process_entity fs entity extension x j h [])) ->
  (forall p, ev = CallSha1Directory p ->
             p = entity /\ (extension =? "directory")%string = true)
  /\ (forall p, ev = CallSha1 p ->
                p = entity /\ (extension =? "directory")%string = false).
Proof.
  intros Hin. apply process_entity_events in Hin.
  destruct Hin as [-> | [-> | [Htrace | (filename & sha1_hash & data & Hout)]]].
  - split; intros p Hp; discriminate.
  - unfold hash_event. destruct (extension =? "directory")%string;
      split; intros p Hp; try discriminate; injection Hp as <-; auto.
  - destruct (trace_prefix fs entity) as (root & rest & Hseq & _).
    assert (Hall : In ev (call_sequence entity root))
      by (rewrite Hseq; apply in_or_app; now left).
    unfold call_sequence in Hall. simpl in Hall.
    split; intros p Hp; subst ev;
      repeat (destruct Hall as [Hall | Hall]; [ discriminate | ]);
      destruct Hall.
  - apply output_events_are_output in Hout.
    split; intros p Hp; subst ev; discriminate.
Qed.

(** Every event of the loop belongs to the turn of one package, which saw
    the file system as the turns before it left it. *)
Lemma cli_packages_events (json xml hardcopy : bool) (packages : list string) :
  forall fs ev,
    In ev (snd (cli_packages fs json xml hardcopy packages [])) ->
    exists before package after,
      packages = before ++ package :: after
      /\ ((eligible (file_system_after fs json xml hardcopy before) package = true
           /\ In ev (snd (process_entity
                            (file_system_after fs json xml hardcopy before)
                            package
                            (extension_for
                               (file_system_after fs json xml hardcopy before)
                               package)
                            xml json hardcopy [])))
          \/ ev = rejection (file_system_after fs json xml hardcopy before)
                    package).
Proof.
  induction packages as [ | package rest IH]; intros fs ev Hin;
    [ destruct Hin | ].
  rewrite cli_packages_cons in Hin.
  assert (Hturn : In ev (snd (cli_package fs json xml hardcopy package []))
                  \/ (exists events,
                        cli_package fs json xml hardcopy package []
                        = (Ok tt, events)
                        /\ In ev (snd (cli_packages (written fs events)
                                         json xml hardcopy rest [])))).
  { destruct (cli_package fs json xml hardcopy package []) as [[[] | e] events];
      cbn [app snd] in *; [ | now left ].
    rewrite parametric_cli_packages in Hin. cbn [snd] in Hin.
    apply in_app_or in Hin. destruct Hin as [Hin | Hin]; [ now left | ].
    right. now exists events. }
  destruct Hturn as [Hturn | (events & Hevents & Hrest)].
  - exists [], package, rest. split; [ reflexivity | ]. cbn [file_system_after].
    rewrite cli_package_run in Hturn.
    destruct (eligible fs package).
    + left. split; [ reflexivity | ].
      destruct (process_entity fs package (extension_for fs package)
                  xml json hardcopy []) as [[report | e] log']; exact Hturn.
    + right. destruct Hturn as [<- | []]. reflexivity.
  - destruct (IH _ _ Hrest) as (before & package' & after & -> & Hev).
    exists (package :: before), package', after.
    split; [ reflexivity | ]. cbn [file_system_after].
    rewrite Hevents. exact Hev.
Qed.

(** X17. In a run of [cli], [UTILS.sha1_directory] is called only on a
    package that was a directory, and not a file, when its turn came, and
    [UTILS.sha1] only on a package that was then a file with an allowed
    extension: a directory is hashed as a directory even when its name ends
    in [.zip], and also when an earlier turn of the same run created it. *)
Theorem cli_hashes_by_kind
    (fs : FS) (json xml hardcopy : bool) (packages : list string) (p : string) :
  (In (CallSha1Directory p) (snd (cli fs json xml hardcopy packages [])) ->
   exists before after,
     packages = before ++ p :: after
     /\ os_path_isfile (file_system_after fs json xml hardcopy before) p = false
     /\ os_path_isdir (file_system_after fs json xml hardcopy before) p = true)
  /\ (In (CallSha1 p) (snd (cli fs json xml hardcopy packages [])) ->
      exists before after,
        packages = before ++ p :: after
        /\ os_path_isfile (file_system_after fs json xml hardcopy before) p = true
        /\ allowed_extension (extension_of p) = true).
Proof.
  assert (Hcli : forall ev,
             In ev (snd (cli fs json xml hardcopy packages [])) ->
             ev = EchoText get_help
             \/ In ev (snd (cli_packages fs json xml hardcopy packages []))).
  { intros ev Hin. destruct packages as [ | package rest].
    - destruct Hin as [<- | []]. now left.
    - right. now rewrite cli_nonempty in Hin. }
  split; intros Hin; apply Hcli in Hin;
    (destruct Hin as [Hin | Hin]; [ discriminate | ]);
    destruct (cli_packages_events _ _ _ _ _ _ Hin)
      as (before & package & after & -> & [[Helig Hev] | Hrej]).
  - destruct (process_entity_hash_calls _ _ _ _ _ _ _ Hev) as [Hdir _].
    destruct (Hdir p eq_refl) as [-> Hext].
    exists before, after. split; [ reflexivity | ].
    unfold eligible, extension_for in *.
    destruct (os_path_isfile (file_system_after fs json xml hardcopy before)
                package); [ | auto ].
    rewrite (allowed_extension_not_directory _ Helig) in Hext. discriminate.
  - unfold rejection in Hrej.
    destruct (os_path_isfile (file_system_after fs json xml hardcopy before)
                package); discriminate.
  - destruct (process_entity_hash_calls _ _ _ _ _ _ _ Hev) as [_ Hfile].
    destruct (Hfile p eq_refl) as [-> Hext].
    exists before, after. split; [ reflexivity | ].
    unfold eligible, extension_for in *.
    destruct (os_path_isfile (file_system_after fs json xml hardcopy before)
                package); [ auto | discriminate ].
  - unfold rejection in Hrej.
    destruct (os_path_isfile (file_system_after fs json xml hardcopy before)
                package); discriminate.
Qed.

End CliProperties.

(** * Paths that end in a slash *)

Section TrailingSlash.

Context {FS : Type} {C : Collaborators FS}.

(** X18. For an entity given with a slash at its end ([/data/ip1/]) the
    [filename] recorded in the metadata of the report is the empty string:
    [os.path.basename] of such a path is empty. *)
Theorem trailing_slash_gives_empty_filename
    (fs : FS) (directory extension : string) (xml json hardcopy : bool)
    (log : Log) (report : PyVal) :
  fst (process_entity fs (directory ++ "/") extension xml json hardcopy log)
  = Ok report ->
  exists metadata,
    dict_get "metadata" report = Some metadata
    /\ dict_get "filename" metadata = Some (PyStr "").
Proof.
  intros Hreport.
  destruct (process_entity_report _ _ _ _ _ _ _ _ Hreport)
    as (r & filesize & sha1_hash & _ & ->).
  unfold os_path_basename. rewrite split_at_last_slash_trailing.
  eexists. split; reflexivity.
Qed.

End TrailingSlash.

(** * The theorems on the sample command line *)

Module MoreRuns.

Import StructureChecker Scripted Samples CliSamples.

Lemma validate_calls_in_order_sample :
  exists rest,
    call_sequence "/data/ip2" "/data/ip2" = @trace _ passing disk "/data/ip2" ++ rest.
Proof.
  apply (@validate_calls_in_order _ passing disk "/data/ip2"
           (details_to_dict (check_structure nothing_disallowed disk "/data/ip2"))
           (check_structure nothing_disallowed disk "/data/ip2")).
  reflexivity.
Defined.

Lemma structure_exception_propagates_sample :
  @validate _ unreadable_package disk "/data/ip1" []
  = (Raise (mkPyExc "OSError" "cannot list the package"),
     [CallStructure "/data/ip1"]).
Proof.
  apply (@structure_exception_propagates _ unreadable_package disk "/data/ip1"
           (mkPyExc "OSError" "cannot list the package") eq_refl []).
Defined.

(** The package without [METS.xml] gets no report when the rules cannot be
    loaded. *)
Lemma profile_constructor_failure_aborts_every_run_sample :
  @validate _ without_rules disk "/data/ip2" []
  = (Raise (mkPyExc "OSError" "schematron rules not found"),
     [CallStructure "/data/ip2"; NewValidationProfile]).
Proof.
  apply (@profile_constructor_failure_aborts_every_run _ without_rules disk
           "/data/ip2" _ _ (mkPyExc "OSError" "schematron rules not found")
           eq_refl eq_refl []).
Defined.

Lemma schema_failure_report_sample :
  exists r,
    @outcome _ failing_schema disk "/data/ip1" = Ok r
    /\ schema_result r = PyBool false
    /\ schema_errors r = [sample_error]
    /\ mets_results_dict r = PyDict [("valid", PyBool false)].
Proof.
  eexists. split.
  - apply (@schema_failure_report _ failing_schema disk "/data/ip1"
             _ _ false [] [sample_error] (PyBool false)
             (PyDict [("valid", PyBool false)])
             eq_refl eq_refl eq_refl eq_refl eq_refl eq_refl).
    discriminate.
  - repeat split.
Defined.

Lemma full_run_report_sample :
  exists r,
    @outcome _ passing disk "/data/ip1" = Ok r
    /\ schematron_result r = true
    /\ @trace _ passing disk "/data/ip1" = call_sequence "/data/ip1" "/data/ip1".
Proof.
  destruct (@full_run_report _ passing disk "/data/ip1"
              _ _ false true [] [] (PyDict [("valid", PyBool true)])
              (PyDict [("root", PyDict [])]) (PyDict [("root", PyStr "ok")])
              eq_refl eq_refl eq_refl eq_refl eq_refl eq_refl eq_refl eq_refl
              eq_refl)
    as [Hreport Htrace].
  eexists. split; [ exact Hreport | ]. split; [ reflexivity | exact Htrace ].
Defined.

Lemma process_entity_returns_iff_sample :
  exists report,
    fst (@process_entity _ passing disk "/data/ip2" "directory" true true true [])
    = Ok report.
Proof.
  apply (proj2 (@process_entity_returns_iff _ passing disk "/data/ip2"
                  "directory" true true true [])).
  repeat split; eexists; reflexivity.
Defined.

Lemma metadata_failure_skips_validation_sample :
  fst (@process_entity _ unreadable_size disk "/data/ip1" "directory"
         false true false [])
  = Raise (mkPyExc "PermissionError" "/data/ip1").
Proof.
  apply (@metadata_failure_skips_validation _ unreadable_size disk "/data/ip1"
           "directory" false true false []
           (mkPyExc "PermissionError" "/data/ip1")).
  left. reflexivity.
Defined.

(** Both [xml] and [json] are set: the report is echoed as XML. *)
Lemma console_output_sample :
  exists report,
    fst (@process_entity _ passing disk "/data/ip2" "directory" true true false [])
    = Ok report
    /\ In (Echo "xml" report)
          (snd (@process_entity _ passing disk "/data/ip2" "directory"
                  true true false [])).
Proof.
  eexists. split; [ reflexivity | ].
  apply (proj1 (@console_output _ passing disk "/data/ip2" "directory"
                  true true false _ eq_refl)).
  reflexivity.
Defined.

Lemma file_output_sample :
  exists report,
    fst (@process_entity _ passing disk "/data/ip2" "directory" false false true [])
    = Ok report
    /\ In (WriteFile "json" "da39a3ee/ip_validator.ip2.json" report)
          (snd (@process_entity _ passing disk "/data/ip2" "directory"
                  false false true [])).
Proof.
  eexists. split; [ reflexivity | ].
  destruct (@file_output _ passing disk "/data/ip2" "directory"
              false false true _ eq_refl)
    as (sha1_hash & Hhash & _ & _ & Hwritten).
  injection Hhash as <-.
  apply Hwritten. reflexivity.
Defined.



Lemma extension_is_last_suffix_lowercased_sample :
  extension_of "/data/ip3.tar.GZ" = "gz".
Proof.
  apply (extension_is_last_suffix_lowercased "/data/ip3.tar" "GZ");
    reflexivity.
Defined.

Lemma dot_files_have_no_extension_sample :
  extension_of "/data/.zip" = ""
  /\ allowed_extension (extension_of "/data/.zip") = false.
Proof.
  apply (dot_files_have_no_extension "/data/.zip" "." "zip"); reflexivity.
Defined.

Lemma cli_rejects_without_validating_sample :
  @cli _ passing command_line shelf true false false
    ["/nowhere"; "/data/notes.txt"] []
  = (Ok tt,
     [EchoText "/nowhere is not a valid file or folder.";
      EchoText "/data/notes.txt has an invalid extension."]).
Proof.
  apply (@cli_rejects_without_validating _ passing command_line shelf
           true false false ["/nowhere"; "/data/notes.txt"] []).
  intros package [<- | [<- | []]]; reflexivity.
Defined.

Lemma cli_validates_eligible_in_order_sample :
  filter Event_is_structure_call
    (snd (@cli _ passing command_line shelf true false false
            ["/data/ip1"; "/nowhere"; "/data/ip3.tar.GZ"] []))
  = [CallStructure "/data/ip1"; CallStructure "/data/ip3.tar.GZ"].
Proof.
  apply (proj2 (@cli_validates_eligible_in_order _ passing command_line shelf
                  true false
                  ["/data/ip1"; "/nowhere"; "/data/ip3.tar.GZ"]
                  (fun package Hin Helig =>
                     match Hin with
                     | or_introl Heq =>
                         eq_ind "/data/ip1"
                           (fun p => exists report,
                              fst (@process_entity _ passing shelf p
                                     (@extension_for _ command_line shelf p)
                                     false true false []) = Ok report)
                           (ex_intro _ _ eq_refl) package Heq
                     | or_intror (or_introl Heq) =>
                         eq_ind "/nowhere"
                           (fun p => exists report,
                              fst (@process_entity _ passing shelf p
                                     (@extension_for _ command_line shelf p)
                                     false true false []) = Ok report)
                           (ex_intro _ _ eq_refl) package Heq
                     | or_intror (or_intror (or_introl Heq)) =>
                         eq_ind "/data/ip3.tar.GZ"
                           (fun p => exists report,
                              fst (@process_entity _ passing shelf p
                                     (@extension_for _ command_line shelf p)
                                     false true false []) = Ok report)
                           (ex_intro _ _ eq_refl) package Heq
                     | or_intror (or_intror (or_intror Hnone)) =>
                         match Hnone with end
                     end))).
Defined.

Lemma cli_stops_at_first_exception_sample :
  @cli _ unreadable_size command_line shelf true false false
    ["/nowhere"; "/data/ip1"; "/data/ip2"] []
  = (Raise (mkPyExc "PermissionError" "/data/ip1"),
     [EchoText "/nowhere is not a valid file or folder.";
      CallGetSize "/data/ip1"]).
Proof.
  apply (@cli_stops_at_first_exception _ unreadable_size command_line shelf
           true false false ["/nowhere"] ["/data/ip2"] "/data/ip1"
           (mkPyExc "PermissionError" "/data/ip1") []
           [EchoText "/nowhere is not a valid file or folder."]);
    reflexivity.
Defined.

(** With [hardcopy], processing [/data/ip1] creates the directory
    [da39a3ee]; named as the next package, it is a directory when its turn
    comes and is hashed as one. *)
Lemma cli_hashes_by_kind_sample :
  @os_path_isdir _ command_line shelf "da39a3ee" = false
  /\ exists before after,
       ["/data/ip1"; "da39a3ee"] = before ++ "da39a3ee" :: after
       /\ @os_path_isfile _ command_line
            (@file_system_after _ passing command_line shelf true false true before)
            "da39a3ee" = false
       /\ @os_path_isdir _ command_line
            (@file_system_after _ passing command_line shelf true false true before)
            "da39a3ee" = true.
Proof.
  split; [ reflexivity | ].
  apply (proj1 (@cli_hashes_by_kind _ passing command_line shelf
                  true false true ["/data/ip1"; "da39a3ee"] "da39a3ee")).
  do 15 right. left. reflexivity.
Defined.

Lemma trailing_slash_gives_empty_filename_sample :
  exists report metadata,
    fst (@process_entity _ passing disk "/data/ip1/" "directory"
           false true false []) = Ok report
    /\ dict_get "metadata" report = Some metadata
    /\ dict_get "filename" metadata = Some (PyStr "").
Proof.
  eexists.
  destruct (@trailing_slash_gives_empty_filename _ passing disk "/data/ip1"
              "directory" false true false [] _ eq_refl)
    as (metadata & Hmeta & Hname).
  exists metadata. split; [ reflexivity | ]. split; assumption.
Defined.

End MoreRuns.
